(** * mock-server: the request-dispatch chain, the route table, the
    response renderer and the mock loader of [server.go].

    Go code is embedded shallowly: structs are records, the global
    [routeChain] map is a [gmap], responder closures are Rocq functions,
    the dispatcher closure is what it captures together with its body,
    the per-request mutable index of the dispatch closure is threaded as
    explicit state, and the buffered channel of [loadMocks] is a bounded
    queue whose send can block. *)

From Stdlib Require Import ZArith Ascii String.
From stdpp Require Import gmap strings list fin_maps sorting pretty.

#[local] Set Warnings "-register-all".
#[local] Open Scope Z_scope.

(** ** Constants *)

Definition MAX_DIRECTORY_COUNT : Z := 20.
Definition SERVER_NAME : string := "mock-server".

(** ** Outcomes of running a piece of Go code

    [Ret a]: the call returned [a].  [Panic]: a run-time panic (index out
    of range).  [Blocked]: the goroutine blocked for ever on a channel
    operation.  [NoFuel]: the model's recursion budget ran out (never a
    behaviour of the program; theorems show when it cannot happen). *)

Inductive outcome (A : Type) : Type :=
| Ret (a : A)
| Panic
| Blocked
| NoFuel.
Arguments Ret {A} a.
Arguments Panic {A}.
Arguments Blocked {A}.
Arguments NoFuel {A}.

#[global] Instance outcome_ret : MRet outcome := fun A a => Ret a.

#[global] Instance outcome_bind : MBind outcome := fun A B k o =>
  match o with
  | Ret a => k a
  | Panic => Panic
  | Blocked => Blocked
  | NoFuel => NoFuel
  end.

(** ** Numbers

    A JSON number literal is decoded to a [float64] (for a body of type
    [interface{}]) or to an [int] (for [statusCode]); a [float64] is
    printed by [encoding/json] and by [fmt] with two different rules.
    The literals, the floats and these four library functions are an
    interface of the development. *)

Class Float64 (F64 : Type) : Type := {
  (** The float as [json.Marshal] prints it. *)
  FormatJSON : F64 -> string;
  (** The float as [fmt]'s verb [%v] prints it. *)
  FormatV : F64 -> string
}.

Class Literal (Lit F64 : Type) : Type := {
  (** [strconv.ParseFloat(lit, 64)]; [None] when out of range. *)
  ParseFloat : Lit -> option F64;
  (** [strconv.ParseInt(lit, 10, 64)]; [None] for a fraction, an exponent
      or an overflow. *)
  ParseInt : Lit -> option Z
}.

(** ** Go values stored in an [interface{}] by [encoding/json] *)

Inductive Value (F64 : Type) : Type :=
| VNil
| VBool (b : bool)
| VFloat (f : F64)
| VString (s : string)
| VSlice (l : list (Value F64))
| VMap (m : gmap string (Value F64)).
Arguments VNil {F64}.
Arguments VBool {F64} b.
Arguments VFloat {F64} f.
Arguments VString {F64} s.
Arguments VSlice {F64} l.
Arguments VMap {F64} m.

(** Map entries in increasing byte-wise key order, the order in which
    both [encoding/json] and [fmt] visit a [map[string]T]. *)

Definition key_le {A : Type} (a b : string * A) : Prop :=
  String.leb a.1 b.1 = true.

#[global] Instance key_le_dec {A : Type} (a b : string * A) : Decision (key_le a b).
Proof. unfold key_le. apply _. Defined.

Definition sorted_entries {A : Type} (m : gmap string A) : list (string * A) :=
  merge_sort key_le (map_to_list m).

Definition join (sep : string) (l : list string) : string := String.concat sep l.

(** ** [encoding/json]: marshalling *)

Module json.

Definition hex (n : N) : ascii :=
  match String.get (N.to_nat n) "0123456789abcdef" with
  | Some c => c
  | None => "0"%char
  end.

(** One byte below [utf8.RuneSelf] as [appendString] writes it with
    [escapeHTML] set. *)
Definition escape_byte (c : ascii) : string :=
  let n := N_of_ascii c in
  if (n =? 34)%N || (n =? 92)%N then String "\" (String c "")
  else if (n =? 8)%N then "\b"
  else if (n =? 12)%N then "\f"
  else if (n =? 10)%N then "\n"
  else if (n =? 13)%N then "\r"
  else if (n =? 9)%N then "\t"
  else if (n <? 32)%N || (n =? 60)%N || (n =? 62)%N || (n =? 38)%N
       then "\u00" +:+ String (hex (n / 16)) (String (hex (n mod 16)) "")
  else String c "".

(** The body of [appendString] on a valid UTF-8 string: U+2028 and
    U+2029 (bytes E2 80 A8 and E2 80 A9) are escaped, every other
    multi-byte rune is copied. *)
Fixpoint escape (s : string) : string :=
  match s with
  | EmptyString => ""
  | String c rest =>
      match rest with
      | String c1 (String c2 rest') =>
          if (N_of_ascii c =? 226)%N && (N_of_ascii c1 =? 128)%N
             && ((N_of_ascii c2 =? 168)%N || (N_of_ascii c2 =? 169)%N)
          then "\u202" +:+ String (hex (N_of_ascii c2 mod 16)) (escape rest')
          else escape_byte c +:+ escape rest
      | _ => escape_byte c +:+ escape rest
      end
  end.

Definition dquote : ascii := ascii_of_N 34.

Definition quote (s : string) : string :=
  String dquote (escape s) +:+ String dquote "".

(** [json.Marshal] on a value decoded from JSON: no insignificant white
    space, object keys sorted. *)
Fixpoint Marshal {F64 : Type} `{Float64 F64} (v : Value F64) : string :=
  match v with
  | VNil => "null"
  | VBool b => if b then "true" else "false"
  | VFloat f => FormatJSON f
  | VString s => quote s
  | VSlice l => "[" +:+ join "," (map Marshal l) +:+ "]"
  | VMap m =>
      "{" +:+ join "," (map (fun kv => quote kv.1 +:+ ":" +:+ kv.2)
                             (sorted_entries (Marshal <$> m))) +:+ "}"
  end.


(** *** Documents

    A JSON text after scanning.  Object members keep their order and
    their duplicates; numbers keep their literal. *)
Inductive JSON (Lit : Type) : Type :=
| JNull
| JBool (b : bool)
| JNumber (lit : Lit)
| JString (s : string)
| JArray (elems : list (JSON Lit))
| JObject (members : list (string * JSON Lit)).
Arguments JNull {Lit}.
Arguments JBool {Lit} b.
Arguments JNumber {Lit} lit.
Arguments JString {Lit} s.
Arguments JArray {Lit} elems.
Arguments JObject {Lit} members.

(** The bytes handed to [json.Valid] and [json.Unmarshal], as the
    scanner sees them: [None] when they are not a JSON text. *)
Definition RawMessage (Lit : Type) : Type := option (JSON Lit).

Definition Valid {Lit : Type} (data : RawMessage Lit) : bool :=
  match data with
  | Some _ => true
  | None => false
  end.

(** Decoding into an [interface{}]: [nil], [bool], [float64],
    [string], [[]interface{}], [map[string]interface{}]; in a map the
    last of several equal keys stays.  [None] is an
    [UnmarshalTypeError] (a number outside [float64]). *)
Fixpoint to_interface {Lit F64 : Type} `{Literal Lit F64} (j : JSON Lit)
    : option (Value F64) :=
  match j with
  | JNull => Some VNil
  | JBool b => Some (VBool b)
  | JNumber lit => VFloat <$> ParseFloat lit
  | JString s => Some (VString s)
  | JArray elems =>
      VSlice <$>
        (fix elements (l : list (JSON Lit)) : option (list (Value F64)) :=
           match l with
           | [] => Some []
           | x :: l =>
               match to_interface x, elements l with
               | Some v, Some vs => Some (v :: vs)
               | _, _ => None
               end
           end) elems
  | JObject members =>
      VMap <$>
        (fix entries (l : list (string * JSON Lit)) (m : gmap string (Value F64))
           : option (gmap string (Value F64)) :=
           match l with
           | [] => Some m
           | kx :: l =>
               match to_interface kx.2 with
               | Some v => entries l (<[kx.1 := v]> m)
               | None => None
               end
           end) members ∅
  end.

Definition upper (c : ascii) : ascii :=
  let n := N_of_ascii c in
  if (97 <=? n)%N && (n <=? 122)%N then ascii_of_N (n - 32) else c.

Definition is_byte (c : ascii) (n : N) : bool := (N_of_ascii c =? n)%N.

(** [foldName]: the key under which a struct field is looked up when
    no field has exactly the member's name.  ASCII letters go to upper
    case; U+017F (bytes C5 BF) folds to [S] and U+212A (bytes E2 84 AA)
    to [K]; the other runes have no ASCII letter in their fold orbit
    and are left as they are here. *)
Fixpoint foldName (s : string) : string :=
  match s with
  | EmptyString => ""
  | String c rest =>
      match rest with
      | String c1 rest1 =>
          if is_byte c 197 && is_byte c1 191 then String "S" (foldName rest1)
          else match rest1 with
               | String c2 rest2 =>
                   if is_byte c 226 && is_byte c1 132 && is_byte c2 170
                   then String "K" (foldName rest2)
                   else String (upper c) (foldName rest)
               | EmptyString => String (upper c) (foldName rest)
               end
      | EmptyString => String (upper c) (foldName rest)
      end
  end.

(** Does the object member [key] select the field tagged [name]? *)
Definition selects (key name : string) : bool :=
  String.eqb key name || String.eqb (foldName key) (foldName name).

End json.

(** ** [fmt]: the default format *)

Module fmt.

(** [fmt.Sprint(v)] for one operand held in an [interface{}]. *)
Fixpoint Sprint {F64 : Type} `{Float64 F64} (v : Value F64) : string :=
  match v with
  | VNil => "<nil>"
  | VBool b => if b then "true" else "false"
  | VFloat f => FormatV f
  | VString s => s
  | VSlice l => "[" +:+ join " " (map Sprint l) +:+ "]"
  | VMap m =>
      "map[" +:+ join " " (map (fun kv => kv.1 +:+ ":" +:+ kv.2)
                                (sorted_entries (Sprint <$> m))) +:+ "]"
  end.

End fmt.

(** ** [serialize] *)

Definition serialize {F64 : Type} `{Float64 F64} (data : Value F64) : string :=
  match data with
  | VMap value => json.Marshal (VMap value)
  | value => fmt.Sprint value
  end.


(** ** Errors returned by the loader or passed to the chain's [next] *)

(** [*fs.PathError], the error of [os.ReadDir] and [os.ReadFile]. *)
Record PathError : Type := {
  Op : string;
  Path : string
}.

Inductive error : Type :=
| ErrMaxDirectoryCount (limit : Z)   (* "max directory count of %v exceeded" *)
| ErrInvalidJson (filepath : string) (* "%v contains invalid json" *)
| ErrSyntax                          (* *json.SyntaxError *)
| ErrUnmarshalType                   (* *json.UnmarshalTypeError *)
| ErrPath (e : PathError).

(** The text of [err.Error()]: exact for the two errors the program
    builds with [fmt.Errorf], a short stand-in for the library's. *)
Definition Error (e : error) : string :=
  match e with
  | ErrMaxDirectoryCount limit => "max directory count of " +:+ pretty limit +:+ " exceeded"
  | ErrInvalidJson filepath => filepath +:+ " contains invalid json"
  | ErrSyntax => "invalid character"
  | ErrUnmarshalType => "json: cannot unmarshal"
  | ErrPath e => Op e +:+ " " +:+ Path e
  end.

(** ** [net/http]: requests and response writers

    A [ResponseWriter] records what a handler did to it: the header map
    behind [w.Header()] under the keys as they were passed to [Add], the
    status of the first [WriteHeader] (later calls are superfluous and
    change nothing; a [Write] before any [WriteHeader] sends 200), and
    the bytes written.  What [net/http] then makes of these calls on the
    wire (the canonical form of header keys, its check of the range of a
    status code) is outside the program and not part of the model. *)

Module http.

Record Request : Type := {
  Method : string;
  Pattern : string
}.

Record ResponseWriter : Type := {
  Header : gmap string (list string);
  status : option Z;
  body : string
}.

Definition fresh : ResponseWriter :=
  {| Header := ∅; status := None; body := "" |}.

Definition Add (key value : string) (w : ResponseWriter) : ResponseWriter :=
  {| Header := <[key := default [] (Header w !! key) ++ [value]]> (Header w);
     status := status w;
     body := body w |}.

Definition WriteHeader (statusCode : Z) (w : ResponseWriter) : ResponseWriter :=
  match status w with
  | Some _ => w
  | None => {| Header := Header w; status := Some statusCode; body := body w |}
  end.

Definition Write (b : string) (w : ResponseWriter) : ResponseWriter :=
  let w := WriteHeader 200 w in
  {| Header := Header w; status := status w; body := body w +:+ b |}.

End http.

(** ** The structs of [server.go] *)

Module MockResponseDefinition.
Record t (F64 : Type) : Type := {
  Body : Value F64;
  Headers : gmap string string;
  StatusCode : Z
}.
Arguments Body {F64} _.
Arguments Headers {F64} _.
Arguments StatusCode {F64} _.
End MockResponseDefinition.

Module MockDefinition.
Record t (F64 : Type) : Type := {
  Endpoint : string;
  Method : string;
  Response : MockResponseDefinition.t F64
}.
Arguments Endpoint {F64} _.
Arguments Method {F64} _.
Arguments Response {F64} _.
End MockDefinition.

(** The per-request state shared by the closures of one dispatch: the
    response writer [w] and the captured counter [currentMidleware]. *)
Record frame : Type := {
  w : http.ResponseWriter;
  currentMidleware : Z
}.

Definition on_w (f : http.ResponseWriter -> http.ResponseWriter) (st : frame) : frame :=
  {| w := f (w st); currentMidleware := currentMidleware st |}.

(** [func(w http.ResponseWriter, r *http.Request, next func(error))]:
    the writer is in the frame, [next] is the continuation. *)
Definition MiddlewareHandler : Type :=
  http.Request -> (option error -> frame -> outcome frame) -> frame -> outcome frame.

Module ChainMiddleware.
Record t : Type := {
  Method : string;
  Handler : MiddlewareHandler
}.
End ChainMiddleware.

(** The dispatcher closure [handler] of [generateMockHandler]: a closure
    is its captured variable [mock]; [handler] below is its body. *)
Inductive HandlerFunc (F64 : Type) : Type :=
| handler_closure (mock : MockDefinition.t F64).
Arguments handler_closure {F64} mock.

Module RouteChain.
Record t (F64 : Type) : Type := {
  Handler : HandlerFunc F64;
  Middleware : list ChainMiddleware.t
}.
Arguments Handler {F64} _.
Arguments Middleware {F64} _.
End RouteChain.

(** ** The renderer, the dispatch chain and the route table *)

Section Server.
Context {F64 : Type} `{Float64 F64}.

Import MockDefinition MockResponseDefinition.


(** The map literal at the head of the responder closure. *)
Definition base_headers : gmap string string :=
  <["Server" := SERVER_NAME]> (<["Content-Type" := "application/json"]> ∅).

(** [handleMockResponse]: status and body are computed once, when the
    responder is built; the closure writes headers, status, body and
    never calls [next]. *)
Definition handleMockResponse (mock : (MockDefinition.t F64)) : MiddlewareHandler :=
  let statusCode := StatusCode (Response mock) in
  let statusCode := if statusCode =? 0 then 200 else statusCode in
  let serializedBody := serialize (Body (Response mock)) in
  fun _r _next st =>
    let headers := base_headers in
    let headers :=
      map_fold (fun key value headers => <[key := value]> headers)
               headers (Headers (Response mock)) in
    let st :=
      map_fold (fun key value st => on_w (http.Add key value) st) st headers in
    let st := on_w (http.WriteHeader statusCode) st in
    let st := on_w (http.Write serializedBody) st in
    Ret st.

(** The closure [next] of the dispatcher.  Each call either answers
    (500 on an error, 404 past the last pair), hands the request to the
    pair at the advanced index, or calls itself; [fuel] bounds the
    nesting of these calls.  Indexing the slice outside its bounds is a
    run-time panic. *)
Fixpoint next (fuel : nat) (middlewares : list ChainMiddleware.t)
    (r : http.Request) (err : option error) (st : frame) : outcome frame :=
  match fuel with
  | O => NoFuel
  | S fuel =>
      match err with
      | Some _ => Ret (on_w (http.WriteHeader 500) st)
      | None =>
          let st := {| w := w st; currentMidleware := currentMidleware st + 1 |} in
          if currentMidleware st >=? Z.of_nat (length middlewares)
          then Ret (on_w (http.WriteHeader 404) st)
          else if currentMidleware st <? 0 then Panic
          else match middlewares !! Z.to_nat (currentMidleware st) with
               | None => Panic
               | Some middleware =>
                   if String.eqb (http.Method r) (ChainMiddleware.Method middleware)
                   then ChainMiddleware.Handler middleware r (next fuel middlewares r) st
                   else next fuel middlewares r None st
               end
      end
  end.

(** One run of the chain over [middlewares], from index -1. *)
Definition dispatch (fuel : nat) (middlewares : list ChainMiddleware.t)
    (w0 : http.ResponseWriter) (r : http.Request) : outcome http.ResponseWriter :=
  st ← next fuel middlewares r None {| w := w0; currentMidleware := -1 |};
  mret (w st).

(** The pair appended for a definition. *)
Definition middleware_of (mock : (MockDefinition.t F64)) : ChainMiddleware.t :=
  {| ChainMiddleware.Method := Method mock;
     ChainMiddleware.Handler := handleMockResponse mock |}.

(** The body of the dispatcher closure: it reads the global
    [routeChain] when the request arrives.  A chain of [n] pairs needs
    at most [n + 1] nested calls of [next]. *)
Definition handler (routeChain : gmap string (RouteChain.t F64)) (mock : (MockDefinition.t F64))
    (w0 : http.ResponseWriter) (r : http.Request) : outcome http.ResponseWriter :=
  let middlewares :=
    match routeChain !! Endpoint mock with
    | Some chain => RouteChain.Middleware chain
    | None => []
    end in
  dispatch (S (length middlewares)) middlewares w0 r.

Definition call (routeChain : gmap string (RouteChain.t F64)) (h : HandlerFunc F64)
    (w0 : http.ResponseWriter) (r : http.Request) : outcome http.ResponseWriter :=
  match h with
  | handler_closure mock => handler routeChain mock w0 r
  end.

(** [generateMockHandler]: the new global map and the returned handler
    ([None] is Go's [nil]). *)
Definition generateMockHandler (mock : (MockDefinition.t F64)) (routeChain : gmap string (RouteChain.t F64))
    : gmap string (RouteChain.t F64) * option (HandlerFunc F64) :=
  match routeChain !! Endpoint mock with
  | Some chain =>
      let chain :=
        {| RouteChain.Handler := RouteChain.Handler chain;
           RouteChain.Middleware := RouteChain.Middleware chain ++ [middleware_of mock] |} in
      (<[Endpoint mock := {| RouteChain.Handler := RouteChain.Handler chain;
                             RouteChain.Middleware := RouteChain.Middleware chain |}]> routeChain,
       None)
  | None =>
      let handler := handler_closure mock in
      let chainMiddleware := [] ++ [middleware_of mock] in
      (<[Endpoint mock := {| RouteChain.Handler := handler;
                             RouteChain.Middleware := chainMiddleware |}]> routeChain,
       Some handler)
  end.

(** The state [main] builds before it listens: the global map and the
    registrations made on the mux, in order. *)
Record server : Type := {
  routeChain : gmap string (RouteChain.t F64);
  mux : list (string * HandlerFunc F64)
}.

Definition server_init : server := {| routeChain := ∅; mux := [] |}.

(** One iteration of the loop of [main]. *)
Definition main_step (s : server) (mock : (MockDefinition.t F64)) : server :=
  let '(routeChain', handler) := generateMockHandler mock (routeChain s) in
  match handler with
  | Some handler =>
      {| routeChain := routeChain'; mux := mux s ++ [(Endpoint mock, handler)] |}
  | None => {| routeChain := routeChain'; mux := mux s |}
  end.

Definition main_routes (mocks : list (MockDefinition.t F64)) : server :=
  foldl main_step server_init mocks.

(** Serving a request the mux matched to [r.Pattern]: the handler
    registered for that pattern runs on a fresh writer; [None] when no
    handler is registered (the mux answers by itself). *)
Definition ServeHTTP (s : server) (r : http.Request)
    : option (outcome http.ResponseWriter) :=
  match list_find (fun ph => ph.1 = http.Pattern r) (mux s) with
  | Some (_, (_, h)) => Some (call (routeChain s) h http.fresh r)
  | None => None
  end.

End Server.

(** ** The file system, paths and the channel of the loader *)

Module os.

Record DirEntry : Type := {
  Name : string;
  IsDir : bool
}.

(** What [os.ReadDir] and [os.ReadFile] answer for each path. *)
Record FileSystem (Lit : Type) : Type := {
  ReadDir : string -> PathError + list DirEntry;
  ReadFile : string -> PathError + json.RawMessage Lit
}.
Arguments ReadDir {Lit} _ _.
Arguments ReadFile {Lit} _ _.

End os.

Module path.

(** [path.Join(dir, name)] for a clean [dir] and a plain entry name, as
    [loadMocks] calls it. *)
Definition Join (dir name : string) : string :=
  if String.eqb dir "" then name
  else if String.eqb dir "/" then "/" +:+ name
  else dir +:+ "/" +:+ name.

End path.

Module filepath.

Definition IsPathSeparator (c : ascii) : bool := Ascii.eqb c "/".

Fixpoint has_separator (s : string) : bool :=
  match s with
  | EmptyString => false
  | String c rest => IsPathSeparator c || has_separator rest
  end.

(** [filepath.Ext]: the suffix from the last dot of the last path
    element, or the empty string. *)
Fixpoint Ext (path : string) : string :=
  match path with
  | EmptyString => ""
  | String c rest =>
      match Ext rest with
      | EmptyString =>
          if Ascii.eqb c "." && negb (has_separator rest) then path else ""
      | ext => ext
      end
  end.

End filepath.

(** A buffered [chan string]: a send on a full buffer and a receive on an
    empty one never complete, as no other goroutine uses the channel. *)
Module chan.

Record t : Type := {
  buf : list string;
  cap : nat
}.

Definition make (size : Z) : t := {| buf := []; cap := Z.to_nat size |}.

Definition len (c : t) : Z := Z.of_nat (length (buf c)).

Definition send (c : t) (x : string) : outcome t :=
  if decide (length (buf c) < cap c)%nat
  then Ret {| buf := buf c ++ [x]; cap := cap c |}
  else Blocked.

Definition recv (c : t) : outcome (string * t) :=
  match buf c with
  | x :: rest => Ret (x, {| buf := rest; cap := cap c |})
  | [] => Blocked
  end.

End chan.

(** Leaving a loop body: go on with the loop variables, or return from
    the enclosing function. *)
Inductive flow (A R : Type) : Type :=
| Continue (a : A)
| Return (r : R).
Arguments Continue {A R} a.
Arguments Return {A R} r.

(** ** The loader *)

Section Loader.
Context {Lit F64 : Type} `{Literal Lit F64}.

Import MockDefinition MockResponseDefinition json.


Fixpoint foldM {A B : Type} (f : B -> A -> option A) (l : list B) (a : A) : option A :=
  match l with
  | [] => Some a
  | b :: l =>
      match f b a with
      | Some a => foldM f l a
      | None => None
      end
  end.

(** *** [json.Unmarshal] into the structs of the program

    Each decoder takes the value already in the destination.  A [null]
    leaves a string, an int or a struct as it is and resets a map or an
    interface; a member that selects no field is skipped; [None] is an
    [UnmarshalTypeError]. *)

Definition decode_string (j : JSON Lit) (old : string) : option string :=
  match j with
  | JString s => Some s
  | JNull => Some old
  | _ => None
  end.

Definition decode_int (j : JSON Lit) (old : Z) : option Z :=
  match j with
  | JNumber lit => ParseInt lit
  | JNull => Some old
  | _ => None
  end.

Definition decode_map (j : JSON Lit) (old : gmap string string)
    : option (gmap string string) :=
  match j with
  | JObject members =>
      foldM (fun kx m => s ← decode_string kx.2 ""; Some (<[kx.1 := s]> m)) members old
  | JNull => Some ∅
  | _ => None
  end.

Definition decode_response_member (kx : string * JSON Lit)
    (r : MockResponseDefinition.t F64) : option (MockResponseDefinition.t F64) :=
  if selects kx.1 "body" then
    v ← to_interface kx.2;
    Some {| Body := v; Headers := Headers r; StatusCode := StatusCode r |}
  else if selects kx.1 "headers" then
    h ← decode_map kx.2 (Headers r);
    Some {| Body := Body r; Headers := h; StatusCode := StatusCode r |}
  else if selects kx.1 "statusCode" then
    c ← decode_int kx.2 (StatusCode r);
    Some {| Body := Body r; Headers := Headers r; StatusCode := c |}
  else Some r.

Definition decode_response (j : JSON Lit) (old : MockResponseDefinition.t F64)
    : option (MockResponseDefinition.t F64) :=
  match j with
  | JObject members => foldM decode_response_member members old
  | JNull => Some old
  | _ => None
  end.

Definition decode_mock_member (kx : string * JSON Lit) (m : (MockDefinition.t F64)) : option (MockDefinition.t F64) :=
  if selects kx.1 "endpoint" then
    e ← decode_string kx.2 (Endpoint m);
    Some {| Endpoint := e; Method := Method m; Response := Response m |}
  else if selects kx.1 "method" then
    e ← decode_string kx.2 (Method m);
    Some {| Endpoint := Endpoint m; Method := e; Response := Response m |}
  else if selects kx.1 "response" then
    r ← decode_response kx.2 (Response m);
    Some {| Endpoint := Endpoint m; Method := Method m; Response := r |}
  else Some m.

Definition decode_mock (j : JSON Lit) (old : (MockDefinition.t F64)) : option (MockDefinition.t F64) :=
  match j with
  | JObject members => foldM decode_mock_member members old
  | JNull => Some old
  | _ => None
  end.

(** The zero value of [MockDefinition]. *)
Definition zero_mock : (MockDefinition.t F64) :=
  {| Endpoint := ""; Method := "";
     Response := {| Body := VNil; Headers := ∅; StatusCode := 0 |} |}.

Definition as_error {A : Type} (o : option A) : error + A :=
  match o with
  | Some a => inr a
  | None => inl ErrUnmarshalType
  end.

(** [json.Unmarshal(content, &listOfMocks)] with [listOfMocks] nil. *)
Definition Unmarshal_list (content : RawMessage Lit) : error + list (MockDefinition.t F64) :=
  match content with
  | None => inl ErrSyntax
  | Some JNull => inr []
  | Some (JArray elems) => as_error (mapM (fun x => decode_mock x zero_mock) elems)
  | Some _ => inl ErrUnmarshalType
  end.

(** [json.Unmarshal(content, &mock)] with [mock] zero. *)
Definition Unmarshal_mock (content : RawMessage Lit) : error + (MockDefinition.t F64) :=
  match content with
  | None => inl ErrSyntax
  | Some j => as_error (decode_mock j zero_mock)
  end.

(** *** [loadMockFromJson]: the pair [([]MockDefinition, error)]; a nil
    slice is the empty list, a nil error is [None]. *)
Definition loadMockFromJson (fs : os.FileSystem Lit) (filepath : string)
    : list (MockDefinition.t F64) * option error :=
  match os.ReadFile fs filepath with
  | inl err => ([], Some (ErrPath err))
  | inr content =>
      if negb (Valid content) then ([], Some (ErrInvalidJson filepath))
      else
        match Unmarshal_list content with
        | inr listOfMocks => (listOfMocks, None)
        | inl _ =>
            match Unmarshal_mock content with
            | inl err => ([], Some err)
            | inr mock => ([mock], None)
            end
        end
  end.

(** *** [loadMocks] *)

(** The inner loop over the entries of one directory. *)
Fixpoint range_entries (fs : os.FileSystem Lit) (dirpath : string)
    (entries : list os.DirEntry) (mocks : list (MockDefinition.t F64)) (dirStack : chan.t)
    : outcome (flow (list (MockDefinition.t F64) * chan.t) (list (MockDefinition.t F64) * option error)) :=
  match entries with
  | [] => Ret (Continue (mocks, dirStack))
  | entry :: entries =>
      if os.IsDir entry then
        dirStack ← chan.send dirStack (path.Join dirpath (os.Name entry));
        range_entries fs dirpath entries mocks dirStack
      else if String.eqb (filepath.Ext (os.Name entry)) ".json" then
        match loadMockFromJson fs (path.Join dirpath (os.Name entry)) with
        | (_, Some err) => Ret (Return ([], Some err))
        | (mock, None) => range_entries fs dirpath entries (mocks ++ mock) dirStack
        end
      else range_entries fs dirpath entries mocks dirStack
  end.

(** The outer loop; [fuel] bounds the number of directories read. *)
Fixpoint loadMocks_loop (fuel : nat) (fs : os.FileSystem Lit)
    (mocks : list (MockDefinition.t F64)) (dirStack : chan.t)
    : outcome (list (MockDefinition.t F64) * option error) :=
  match fuel with
  | O => NoFuel
  | S fuel =>
      if chan.len dirStack >? 0 then
        if chan.len dirStack >? MAX_DIRECTORY_COUNT
        then Ret ([], Some (ErrMaxDirectoryCount MAX_DIRECTORY_COUNT))
        else
          '(dirpath, dirStack) ← chan.recv dirStack;
          match os.ReadDir fs dirpath with
          | inl err => Ret ([], Some (ErrPath err))
          | inr entries =>
              next ← range_entries fs dirpath entries mocks dirStack;
              match next with
              | Continue (mocks, dirStack) => loadMocks_loop fuel fs mocks dirStack
              | Return r => Ret r
              end
          end
      else Ret (mocks, None)
  end.

Definition loadMocks (fuel : nat) (fs : os.FileSystem Lit) (dirpath : string)
    : outcome (list (MockDefinition.t F64) * option error) :=
  let mocks := [] in
  let dirStack := chan.make MAX_DIRECTORY_COUNT in
  dirStack ← chan.send dirStack dirpath;
  loadMocks_loop fuel fs mocks dirStack.

End Loader.

(** ** A concrete number interface

    Integer literals of at most six digits.  Such a literal denotes
    itself as a [float64] and as an [int], and [encoding/json] and [fmt]
    both print that float as the decimal integer. *)

Record smallint : Type := SmallInt {
  small_val : Z;
  small_ok : Is_true (Z.abs small_val <? 1000000)
}.

#[global] Instance smallint_float64 : Float64 smallint := {
  FormatJSON n := pretty (small_val n);
  FormatV n := pretty (small_val n)
}.

#[global] Instance smallint_literal : Literal smallint smallint := {
  ParseFloat lit := Some lit;
  ParseInt lit := Some (small_val lit)
}.

Definition lit (z : Z) (ok : Is_true (Z.abs z <? 1000000)) : smallint := SmallInt z ok.

(** ** Concrete inputs

    Definitions, a request, a chain with a failing responder, a mock file
    and two directory trees, on which the properties below are run. *)

Definition demo_mock (endpoint method : string) (body : Value smallint)
    (headers : gmap string string) (code : Z) : MockDefinition.t smallint :=
  {| MockDefinition.Endpoint := endpoint;
     MockDefinition.Method := method;
     MockDefinition.Response :=
       {| MockResponseDefinition.Body := body;
          MockResponseDefinition.Headers := headers;
          MockResponseDefinition.StatusCode := code |} |}.

Definition users_get : MockDefinition.t smallint :=
  demo_mock "/users" "GET" (VString "first") ∅ 0.

Definition users_get_again : MockDefinition.t smallint :=
  demo_mock "/users" "GET" (VString "second") ∅ 201.

Definition users_post : MockDefinition.t smallint :=
  demo_mock "/users" "POST" VNil {["Content-Type" := "text/plain"]} 201.

Definition demo_mocks : list (MockDefinition.t smallint) :=
  [users_get; users_get_again; users_post].

Definition demo_request (method : string) : http.Request :=
  {| http.Method := method; http.Pattern := "/users" |}.




(** A file holding an array of two definitions of one endpoint, the
    second with no [statusCode] and no [body]. *)
Definition demo_document : json.JSON smallint :=
  json.JArray
    [ json.JObject
        [ ("endpoint", json.JString "/items");
          ("method", json.JString "GET");
          ("response",
            json.JObject
              [ ("body", json.JObject [("a", json.JNumber (lit 1 I))]);
                ("statusCode", json.JNumber (lit 201 I)) ]) ];
      json.JObject
        [ ("endpoint", json.JString "/items");
          ("method", json.JString "DELETE");
          ("response", json.JObject []) ] ].

Definition demo_fs : os.FileSystem smallint :=
  {| os.ReadDir p :=
       if String.eqb p "mocks"
       then inr [ {| os.Name := "items.json"; os.IsDir := false |};
                  {| os.Name := "notes.txt"; os.IsDir := false |};
                  {| os.Name := "empty"; os.IsDir := true |} ]
       else if String.eqb p "mocks/empty" then inr []
       else inl {| Op := "open"; Path := p |};
     os.ReadFile p :=
       if String.eqb p "mocks/items.json" then inr (Some demo_document)
       else inl {| Op := "open"; Path := p |} |}.

(** A root directory with [n] empty subdirectories and no file. *)
Definition subdirectories (n : nat) : list os.DirEntry :=
  (fun i => {| os.Name := "d" +:+ pretty i; os.IsDir := true |}) <$> seq 0 n.

Definition wide_fs (n : nat) : os.FileSystem smallint :=
  {| os.ReadDir p := if String.eqb p "mocks" then inr (subdirectories n) else inr [];
     os.ReadFile p := inl {| Op := "open"; Path := p |} |}.


(** ** What one pass of the inner loop of [loadMocks] touches

    For the listing [entries] of the directory [dirpath], in listing
    order: the paths the loop sends to the channel (the entries that are
    directories), and the paths it hands to [loadMockFromJson] (the other
    entries whose extension is [.json]). *)

Definition sent_paths (dirpath : string) (entries : list os.DirEntry) : list string :=
  (fun entry => path.Join dirpath (os.Name entry))
    <$> filter (fun entry => os.IsDir entry = true) entries.

Definition loaded_paths (dirpath : string) (entries : list os.DirEntry) : list string :=
  (fun entry => path.Join dirpath (os.Name entry))
    <$> filter (fun entry => os.IsDir entry = false
                             ∧ filepath.Ext (os.Name entry) = ".json") entries.

(** A responder that only passes the request on. *)
Definition passing : MiddlewareHandler :=
  fun _r next st => next None st.

Definition passing_chain : list ChainMiddleware.t :=
  [ middleware_of users_post;
    {| ChainMiddleware.Method := "GET"; ChainMiddleware.Handler := passing |};
    middleware_of users_post;
    middleware_of users_get_again ].

(** A directory with two mock files and no subdirectory; the second file
    holds one definition.  In [broken_fs] a file that is not JSON stands
    between them. *)
Definition single_document : json.JSON smallint :=
  json.JObject
    [ ("endpoint", json.JString "/health");
      ("method", json.JString "GET");
      ("response", json.JObject [("body", json.JString "ok")]) ].

Definition flat_fs : os.FileSystem smallint :=
  {| os.ReadDir p :=
       if String.eqb p "mocks"
       then inr [ {| os.Name := "items.json"; os.IsDir := false |};
                  {| os.Name := "readme.md"; os.IsDir := false |};
                  {| os.Name := "health.json"; os.IsDir := false |} ]
       else inl {| Op := "open"; Path := p |};
     os.ReadFile p :=
       if String.eqb p "mocks/items.json" then inr (Some demo_document)
       else if String.eqb p "mocks/health.json" then inr (Some single_document)
       else inl {| Op := "open"; Path := p |} |}.

Definition broken_fs : os.FileSystem smallint :=
  {| os.ReadDir p :=
       if String.eqb p "mocks"
       then inr [ {| os.Name := "items.json"; os.IsDir := false |};
                  {| os.Name := "broken.json"; os.IsDir := false |};
                  {| os.Name := "health.json"; os.IsDir := false |} ]
       else inl {| Op := "open"; Path := p |};
     os.ReadFile p :=
       if String.eqb p "mocks/items.json" then inr (Some demo_document)
       else if String.eqb p "mocks/broken.json" then inr None
       else if String.eqb p "mocks/health.json" then inr (Some single_document)
       else inl {| Op := "open"; Path := p |} |}.

(** * Properties *)

(** ** The renderer *)

Section Renderer.
Context {F64 : Type} `{Float64 F64}.

Import MockDefinition MockResponseDefinition.

(** The first loop of the responder overlays the declared headers on the
    base map: a left-biased union. *)
Lemma overlay_union (declared base : gmap string string) :
  map_fold (fun key value headers => <[key := value]> headers) base declared
  = declared ∪ base.
Proof.
  apply (map_fold_weak_ind (fun r m => r = m ∪ base)).
  - by rewrite (left_id_L ∅ (∪)).
  - intros i x m r _ ->. by rewrite insert_union_l.
Qed.


(** The second loop adds every entry of [headers] to the writer and
    touches nothing else. *)
Lemma range_Add (headers : gmap string string) (st : frame) :
  let st' := map_fold (fun key value st => on_w (http.Add key value) st) st headers in
  currentMidleware st' = currentMidleware st
  ∧ http.status (w st') = http.status (w st)
  ∧ http.body (w st') = http.body (w st)
  ∧ ∀ key, http.Header (w st') !! key =
      match headers !! key with
      | Some value => Some (default [] (http.Header (w st) !! key) ++ [value])
      | None => http.Header (w st) !! key
      end.
Proof.
  cbv zeta.
  apply (map_fold_weak_ind (fun r m =>
    currentMidleware r = currentMidleware st
    ∧ http.status (w r) = http.status (w st)
    ∧ http.body (w r) = http.body (w st)
    ∧ ∀ key, http.Header (w r) !! key =
        match m !! key with
        | Some value => Some (default [] (http.Header (w st) !! key) ++ [value])
        | None => http.Header (w st) !! key
        end)).
  - split_and!; try done.
  - intros i x m r Hi (Hc & Hs & Hb & Hh). split_and!; try done.
    intros key. cbn. destruct (decide (i = key)) as [->|Hne].
    + rewrite !lookup_insert_eq. rewrite Hh, Hi. done.
    + rewrite !lookup_insert_ne by done. apply Hh.
Qed.

Lemma range_Add_fresh (headers : gmap string string) (c : Z) :
  map_fold (fun key value st => on_w (http.Add key value) st)
           {| w := http.fresh; currentMidleware := c |} headers
  = {| w := {| http.Header := (fun value => [value]) <$> headers;
               http.status := None;
               http.body := "" |};
       currentMidleware := c |}.
Proof.
  pose proof (range_Add headers {| w := http.fresh; currentMidleware := c |})
    as (Hc & Hs & Hb & Hh).
  cbv zeta in *. cbn in *.
  destruct (map_fold _ _ headers) as [[hd stt bd] cur]. cbn in *. subst.
  f_equal. f_equal. apply map_eq. intros key.
  rewrite Hh, lookup_fmap, lookup_empty. by destruct (headers !! key).
Qed.

(** Go visits the entries of a map in an order that changes from run to
    run.  A loop whose steps commute for distinct keys gives the same
    result for every order, the one of [map_fold] included. *)
Lemma range_any_order {B : Type} (f : string -> string -> B -> B) (b : B)
    (headers : gmap string string) (order : list (string * string)) :
  (∀ k1 v1 k2 v2 b, k1 ≠ k2 -> f k1 v1 (f k2 v2 b) = f k2 v2 (f k1 v1 b)) ->
  order ≡ₚ map_to_list headers ->
  foldr (uncurry f) b order = map_fold f b headers.
Proof.
  intros Hcomm Hperm. rewrite map_fold_foldr.
  apply (foldr_permutation eq (uncurry f) b order (map_to_list headers)); [|exact Hperm].
  intros j1 [k1 v1] j2 [k2 v2] b0 Hne H1 H2. cbn. apply Hcomm. intros ->.
  assert (NoDup order.*1) as Hnd
    by (rewrite Hperm; apply NoDup_fst_map_to_list).
  apply Hne. eapply NoDup_lookup; [exact Hnd| |].
  - rewrite list_lookup_fmap, H1. done.
  - rewrite list_lookup_fmap, H2. done.
Qed.

Lemma overlay_any_order (declared base : gmap string string)
    (order : list (string * string)) :
  order ≡ₚ map_to_list declared ->
  foldr (uncurry (fun key value headers => <[key := value]> headers)) base order
  = declared ∪ base.
Proof.
  intros Hperm. rewrite <- overlay_union.
  apply (range_any_order (fun key value headers => <[key := value]> headers));
    [|done].
  intros k1 v1 k2 v2 b Hne. by apply insert_insert_ne.
Qed.

Lemma Add_any_order (headers : gmap string string) (st : frame)
    (order : list (string * string)) :
  order ≡ₚ map_to_list headers ->
  foldr (uncurry (fun key value st => on_w (http.Add key value) st)) st order
  = map_fold (fun key value st => on_w (http.Add key value) st) st headers.
Proof.
  apply (range_any_order (fun key value st => on_w (http.Add key value) st)).
  intros k1 v1 k2 v2 [w0 c] Hne. unfold on_w, http.Add. cbn.
  rewrite !lookup_insert_ne by done. do 2 f_equal. by apply insert_insert_ne.
Qed.

(** What a responder writes on a fresh writer. *)
Lemma handleMockResponse_fresh (mock : MockDefinition.t F64) (r : http.Request)
    (k : option error -> frame -> outcome frame) (c : Z) :
  handleMockResponse mock r k {| w := http.fresh; currentMidleware := c |}
  = Ret {| w := {| http.Header :=
                     (fun value => [value]) <$> (Headers (Response mock) ∪ base_headers);
                   http.status :=
                     Some (if StatusCode (Response mock) =? 0 then 200
                           else StatusCode (Response mock));
                   http.body := serialize (Body (Response mock)) |};
           currentMidleware := c |}.
Proof.
  unfold handleMockResponse. rewrite overlay_union, range_Add_fresh. done.
Qed.

End Renderer.

(** ** The dispatch chain *)

Section Chain.

Implicit Types (middlewares : list ChainMiddleware.t) (r : http.Request).


(** One call of [next] that lands on the pair at index [i]. *)
Lemma next_at (fuel : nat) middlewares r (w0 : http.ResponseWriter) (i : nat)
    (middleware : ChainMiddleware.t) :
  middlewares !! i = Some middleware ->
  next (S fuel) middlewares r None {| w := w0; currentMidleware := Z.of_nat i - 1 |}
  = if String.eqb (http.Method r) (ChainMiddleware.Method middleware)
    then ChainMiddleware.Handler middleware r (next fuel middlewares r)
           {| w := w0; currentMidleware := Z.of_nat i |}
    else next fuel middlewares r None {| w := w0; currentMidleware := Z.of_nat i |}.
Proof.
  intros Hi. pose proof (lookup_lt_Some _ _ _ Hi) as Hlt.
  cbn [next w currentMidleware].
  replace (Z.of_nat i - 1 + 1) with (Z.of_nat i) by lia.
  destruct (Z.geb_spec (Z.of_nat i) (Z.of_nat (length middlewares))); [lia|].
  destruct (Z.ltb_spec (Z.of_nat i) 0); [lia|].
  rewrite Nat2Z.id, Hi. done.
Qed.

(** One call of [next] past the last pair. *)
Lemma next_end (fuel : nat) middlewares r (w0 : http.ResponseWriter) :
  next (S fuel) middlewares r None
    {| w := w0; currentMidleware := Z.of_nat (length middlewares) - 1 |}
  = Ret {| w := http.WriteHeader 404 w0;
           currentMidleware := Z.of_nat (length middlewares) |}.
Proof.
  cbn [next w currentMidleware].
  replace (Z.of_nat (length middlewares) - 1 + 1)
    with (Z.of_nat (length middlewares)) by lia.
  destruct (Z.geb_spec (Z.of_nat (length middlewares)) (Z.of_nat (length middlewares)));
    [done | lia].
Qed.

(** Pairs of another method are skipped, one call each. *)
Lemma next_scan r (pre : list ChainMiddleware.t) :
  Forall (fun m => ChainMiddleware.Method m ≠ http.Method r) pre ->
  forall (seen rest : list ChainMiddleware.t) (fuel : nat) (w0 : http.ResponseWriter),
  next (length pre + fuel) (seen ++ pre ++ rest) r None
    {| w := w0; currentMidleware := Z.of_nat (length seen) - 1 |}
  = next fuel (seen ++ pre ++ rest) r None
      {| w := w0; currentMidleware := Z.of_nat (length seen + length pre) - 1 |}.
Proof.
  induction 1 as [|m pre Hm _ IH]; intros seen rest fuel w0.
  - cbn. by rewrite Nat.add_0_r.
  - cbn [length Nat.add].
    rewrite (next_at _ _ _ _ (length seen) m).
    2:{ rewrite lookup_app_r by lia. by rewrite Nat.sub_diag. }
    destruct (String.eqb_spec (http.Method r) (ChainMiddleware.Method m)) as [Heq|_];
      [by symmetry in Heq|].
    specialize (IH (seen ++ [m]) rest fuel w0).
    rewrite <- !(assoc_L (++)) in IH. cbn [app] in IH.
    rewrite length_app in IH. cbn [length] in IH.
    replace (Z.of_nat (length seen + 1) - 1) with (Z.of_nat (length seen)) in IH by lia.
    cbn [app]. rewrite IH. do 3 f_equal. lia.
Qed.

(** The chain reaches the first pair of the request's method and runs
    its responder there. *)
Lemma next_first_match r (pre post : list ChainMiddleware.t)
    (middleware : ChainMiddleware.t) (extra : nat) (w0 : http.ResponseWriter) :
  Forall (fun m => ChainMiddleware.Method m ≠ http.Method r) pre ->
  ChainMiddleware.Method middleware = http.Method r ->
  next (S (length (pre ++ middleware :: post)) + extra) (pre ++ middleware :: post) r None
    {| w := w0; currentMidleware := -1 |}
  = ChainMiddleware.Handler middleware r
      (next (S (length post) + extra) (pre ++ middleware :: post) r)
      {| w := w0; currentMidleware := Z.of_nat (length pre) |}.
Proof.
  intros Hpre Hm.
  pose proof (next_scan r pre Hpre [] (middleware :: post)
                (S (S (length post) + extra)) w0) as Hscan.
  cbn [app length] in Hscan. rewrite Nat.add_0_l in Hscan.
  replace (S (length (pre ++ middleware :: post)) + extra)%nat
    with (length pre + S (S (length post) + extra))%nat
    by (rewrite length_app; cbn [length]; lia).
  change (Z.of_nat 0 - 1) with (-1) in Hscan. rewrite Hscan.
  rewrite (next_at _ _ _ _ (length pre) middleware).
  2:{ rewrite lookup_app_r by lia. by rewrite Nat.sub_diag. }
  rewrite Hm, String.eqb_refl. done.
Qed.

(** No pair of the request's method: every pair is skipped, then 404. *)
Lemma next_no_match r middlewares (extra : nat) (w0 : http.ResponseWriter) :
  Forall (fun m => ChainMiddleware.Method m ≠ http.Method r) middlewares ->
  next (S (length middlewares) + extra) middlewares r None
    {| w := w0; currentMidleware := -1 |}
  = Ret {| w := http.WriteHeader 404 w0;
           currentMidleware := Z.of_nat (length middlewares) |}.
Proof.
  intros Hall.
  pose proof (next_scan r middlewares Hall [] [] (S extra) w0) as Hscan.
  cbn [app length Nat.add] in Hscan. rewrite (right_id_L [] (++)) in Hscan.
  replace (S (length middlewares) + extra)%nat
    with (length middlewares + S extra)%nat by lia.
  change (Z.of_nat 0 - 1) with (-1) in Hscan. rewrite Hscan.
  apply next_end.
Qed.


End Chain.

(** ** The route table *)

Section Routes.
Context {F64 : Type} `{Float64 F64}.

Import MockDefinition MockResponseDefinition.

Implicit Types (mock : MockDefinition.t F64) (mocks : list (MockDefinition.t F64)).

Lemma main_routes_snoc mocks mock :
  main_routes (mocks ++ [mock]) = main_step (main_routes mocks) mock.
Proof. unfold main_routes. by rewrite foldl_snoc. Qed.

Lemma filter_snoc_endpoint mocks mock (e : string) :
  filter (fun m => Endpoint m = e) (mocks ++ [mock])
  = filter (fun m => Endpoint m = e) mocks
    ++ (if decide (Endpoint mock = e) then [mock] else []).
Proof.
  by rewrite filter_app.
Qed.

(** The entry of an endpoint after the loop of [main]: no entry when no
    definition names the endpoint; otherwise the dispatcher made for the
    first of its definitions and one pair per definition, in load
    order. *)
Lemma routeChain_main_routes mocks (e : string) :
  routeChain (main_routes mocks) !! e =
  match filter (fun m => Endpoint m = e) mocks with
  | [] => None
  | first :: rest =>
      Some {| RouteChain.Handler := handler_closure first;
              RouteChain.Middleware := middleware_of <$> first :: rest |}
  end.
Proof.
  induction mocks as [|mock mocks IH] using rev_ind; [done|].
  rewrite main_routes_snoc, filter_snoc_endpoint.
  unfold main_step, generateMockHandler.
  destruct (decide (Endpoint mock = e)) as [<-|Hne].
  - destruct (routeChain (main_routes mocks) !! Endpoint mock) as [chain|] eqn:Hc.
    + cbn. rewrite lookup_insert_eq.
      destruct (filter _ mocks) as [|first rest]; [done|].
      injection IH as ->. cbn. by rewrite fmap_app.
    + cbn. rewrite lookup_insert_eq.
      destruct (filter _ mocks) as [|first rest]; [done|done].
  - rewrite (right_id_L [] (++)).
    destruct (routeChain (main_routes mocks) !! Endpoint mock) as [chain|];
      cbn; by rewrite lookup_insert_ne.
Qed.

(** The registrations on the mux: at most one per pattern, and the
    handler registered for an endpoint is the dispatcher made for the
    first definition of that endpoint. *)
Lemma mux_main_routes mocks :
  NoDup (mux (main_routes mocks)).*1
  ∧ ∀ (e : string) (h : HandlerFunc F64),
      (e, h) ∈ mux (main_routes mocks)
      ↔ ∃ first rest,
          filter (fun m => Endpoint m = e) mocks = first :: rest
          ∧ h = handler_closure first.
Proof.
  induction mocks as [|mock mocks [IHnd IHin]] using rev_ind.
  - split; [constructor|]. intros e h. split.
    + intros Hin. by apply elem_of_nil in Hin.
    + by intros (? & ? & ? & _).
  - rewrite main_routes_snoc. unfold main_step, generateMockHandler.
    pose proof (routeChain_main_routes mocks (Endpoint mock)) as Hrc.
    destruct (routeChain (main_routes mocks) !! Endpoint mock) as [chain|] eqn:Hc; cbn.
    + destruct (filter (fun m => Endpoint m = Endpoint mock) mocks)
        as [|first0 rest0] eqn:Hf0; [done|].
      split; [done|]. intros e h. rewrite IHin, filter_snoc_endpoint.
      split.
      * intros (first & rest & -> & ->). eauto.
      * intros (first & rest & Hf & ->).
        destruct (filter (fun m => Endpoint m = e) mocks) as [|a l] eqn:Hfe.
        -- destruct (decide (Endpoint mock = e)) as [<-|]; [|done].
           by rewrite Hf0 in Hfe.
        -- injection Hf as -> _. eauto.
    + destruct (filter (fun m => Endpoint m = Endpoint mock) mocks)
        as [|first0 rest0] eqn:Hf0; [|done].
      split.
      * rewrite fmap_app. apply NoDup_app. split_and!; [done| |by apply NoDup_singleton].
        intros e Hin Hin'. apply list_elem_of_singleton in Hin'. subst e.
        apply list_elem_of_fmap in Hin as ([e h] & He & Hin). cbn in He. subst e.
        apply IHin in Hin as (? & ? & Hf & _). by rewrite Hf0 in Hf.
      * intros e h. rewrite elem_of_app, list_elem_of_singleton, IHin, filter_snoc_endpoint.
        split.
        -- intros [(first & rest & -> & ->)|[= -> ->]]; [eauto|].
           rewrite Hf0. rewrite decide_True by done. eauto.
        -- intros (first & rest & Hf & ->).
           destruct (decide (Endpoint mock = e)) as [<-|].
           ++ rewrite Hf0 in Hf. injection Hf as <- _. by right.
           ++ rewrite (right_id_L [] (++)) in Hf. left. eauto.
Qed.

(** Serving a request on the routes of [main]: the chain of the
    definitions of the matched endpoint, in load order, runs on a fresh
    writer; an endpoint no definition names has no handler. *)
Lemma ServeHTTP_main_routes mocks (r : http.Request) :
  ServeHTTP (main_routes mocks) r =
  match filter (fun m => Endpoint m = http.Pattern r) mocks with
  | [] => None
  | first :: rest =>
      Some (dispatch (S (length (first :: rest))) (middleware_of <$> first :: rest)
                     http.fresh r)
  end.
Proof.
  unfold ServeHTTP. destruct (mux_main_routes mocks) as [_ Hin].
  destruct (list_find _ (mux (main_routes mocks))) as [[i [e h]]|] eqn:Hfind.
  - apply list_find_Some in Hfind as (Hi & He & _). cbn in He. subst e.
    apply list_elem_of_lookup_2, Hin in Hi as (first & rest & Hf & ->).
    rewrite Hf. f_equal. unfold call, handler.
    assert (Endpoint first = http.Pattern r) as ->.
    { assert (first ∈ filter (fun m => Endpoint m = http.Pattern r) mocks) as Hel
        by (rewrite Hf; left).
      by apply list_elem_of_filter in Hel as [? _]. }
    rewrite routeChain_main_routes, Hf. cbn [RouteChain.Middleware].
    by rewrite length_fmap.
  - destruct (filter _ mocks) as [|first rest] eqn:Hf; [done|].
    apply list_find_None in Hfind.
    assert ((http.Pattern r, handler_closure first) ∈ mux (main_routes mocks)) as Hel
      by (apply Hin; eauto).
    rewrite Forall_forall in Hfind. by apply Hfind in Hel.
Qed.

Lemma ServeHTTP_registered mocks (r : http.Request) (defs : list (MockDefinition.t F64)) :
  filter (fun m => Endpoint m = http.Pattern r) mocks = defs ->
  (0 < length defs)%nat ->
  ServeHTTP (main_routes mocks) r
  = Some (dispatch (S (length defs)) (middleware_of <$> defs) http.fresh r).
Proof.
  intros Hf Hlen. rewrite ServeHTTP_main_routes, Hf.
  destruct defs; [cbn in Hlen; lia | done].
Qed.

(** The first definition of an endpoint and a method splits the
    definitions of that endpoint: before it, none has the method. *)
Lemma list_find_filter mocks (e meth : string) (i : nat) mock :
  list_find (fun m => Endpoint m = e ∧ Method m = meth) mocks = Some (i, mock) ->
  ∃ pre post,
    filter (fun m => Endpoint m = e) mocks = pre ++ mock :: post
    ∧ Forall (fun m => Method m ≠ meth) pre
    ∧ Endpoint mock = e ∧ Method mock = meth.
Proof.
  revert i. induction mocks as [|a mocks IH]; intros i; [done|].
  cbn [list_find]. rewrite filter_cons.
  destruct (decide (Endpoint a = e ∧ Method a = meth)) as [[He Hm]|Hn].
  - intros [= <- <-]. rewrite decide_True by done.
    exists [], (filter (fun m => Endpoint m = e) mocks). by split_and!.
  - destruct (list_find _ mocks) as [[j x]|] eqn:Hfind; [|done].
    cbn. intros [= <- <-].
    destruct (IH j eq_refl) as (pre & post & Hf & Hpre & He & Hm).
    destruct (decide (Endpoint a = e)) as [Hae|Hae].
    + exists (a :: pre), post. rewrite Hf. split_and!; try done.
      constructor; [|done]. intros Hma. by apply Hn.
    + exists pre, post. by split_and!.
Qed.


End Routes.

(** ** Dispatch: the claims *)

Section Dispatch.
Context {F64 : Type} `{Float64 F64}.

Import MockDefinition MockResponseDefinition.


(** C3. A request to a registered endpoint whose method is the method
    of none of the endpoint's pairs: the chain looks at every pair (the
    index ends at the length of the list) and answers 404 with no
    header and an empty body.  This holds for pairs with any
    responders, since none runs. *)
Theorem dispatch_no_match_404
    (routeChain : gmap string (RouteChain.t F64)) (mock : MockDefinition.t F64)
    (chain : RouteChain.t F64) (r : http.Request) :
  routeChain !! Endpoint mock = Some chain ->
  Forall (fun m => ChainMiddleware.Method m ≠ http.Method r) (RouteChain.Middleware chain) ->
  next (S (length (RouteChain.Middleware chain))) (RouteChain.Middleware chain) r None
       {| w := http.fresh; currentMidleware := -1 |}
  = Ret {| w := {| http.Header := ∅; http.status := Some 404; http.body := "" |};
           currentMidleware := Z.of_nat (length (RouteChain.Middleware chain)) |}
  ∧ handler routeChain mock http.fresh r
    = Ret {| http.Header := ∅; http.status := Some 404; http.body := "" |}.
Proof.
  intros Hc Hall.
  pose proof (next_no_match r _ 0 http.fresh Hall) as Hnext.
  rewrite Nat.add_0_r in Hnext.
  split; [exact Hnext|].
  unfold handler, dispatch. rewrite Hc, Hnext. done.
Qed.



(** C8. After [main] has consumed [mocks]: the mux holds at most one
    registration per pattern, and the handler registered for an endpoint
    is the dispatcher made for the first definition of that endpoint;
    the entry of an endpoint holds that dispatcher and one pair per
    definition of the endpoint, in load order, hence at least one pair;
    and consuming one more definition either appends one pair to the
    existing entry and registers nothing, or creates the entry with one
    pair and registers its dispatcher. *)
Theorem route_table_invariant (mocks : list (MockDefinition.t F64)) :
  NoDup (mux (main_routes mocks)).*1
  ∧ (∀ (e : string) (h : HandlerFunc F64),
       (e, h) ∈ mux (main_routes mocks)
       ↔ ∃ first rest,
           filter (fun m => Endpoint m = e) mocks = first :: rest
           ∧ h = handler_closure first)
  ∧ (∀ e : string,
       routeChain (main_routes mocks) !! e =
       match filter (fun m => Endpoint m = e) mocks with
       | [] => None
       | first :: rest =>
           Some {| RouteChain.Handler := handler_closure first;
                   RouteChain.Middleware := middleware_of <$> first :: rest |}
       end)
  ∧ (∀ (e : string) (chain : RouteChain.t F64),
       routeChain (main_routes mocks) !! e = Some chain ->
       (0 < length (RouteChain.Middleware chain))%nat)
  ∧ (∀ mock : MockDefinition.t F64,
       main_routes (mocks ++ [mock]) =
       match routeChain (main_routes mocks) !! Endpoint mock with
       | Some chain =>
           {| routeChain :=
                <[Endpoint mock :=
                    {| RouteChain.Handler := RouteChain.Handler chain;
                       RouteChain.Middleware :=
                         RouteChain.Middleware chain ++ [middleware_of mock] |}]>
                  (routeChain (main_routes mocks));
              mux := mux (main_routes mocks) |}
       | None =>
           {| routeChain :=
                <[Endpoint mock :=
                    {| RouteChain.Handler := handler_closure mock;
                       RouteChain.Middleware := [middleware_of mock] |}]>
                  (routeChain (main_routes mocks));
              mux := mux (main_routes mocks) ++ [(Endpoint mock, handler_closure mock)] |}
       end).
Proof.
  destruct (mux_main_routes mocks) as [Hnd Hin].
  split_and!; try done.
  - apply routeChain_main_routes.
  - intros e chain. rewrite routeChain_main_routes.
    destruct (filter _ mocks); [done|]. intros [= <-]. cbn. lia.
  - intros mock. rewrite main_routes_snoc. unfold main_step, generateMockHandler.
    by destruct (routeChain (main_routes mocks) !! Endpoint mock).
Qed.

End Dispatch.

(** ** Rendering: the claims *)

Section Rendering.
Context {F64 : Type} `{Float64 F64}.

Import MockDefinition MockResponseDefinition json.




End Rendering.

(** C4, as the code has it.  A body that is a map is rendered by
    [json.Marshal]: an object with no white space, its members in key
    order; any other body is rendered by [fmt.Sprint], and a string is
    then its own bytes, with no quotes.  The object with the one member
    [a] of value 1 renders as the seven bytes of that object; the string
    [ok] renders as the two bytes [o] and [k]. *)
Theorem serialize_dual :
  (∀ (F64 : Type) (F : Float64 F64) (m : gmap string (Value F64)),
     serialize (VMap m) = json.Marshal (VMap m)
     ∧ serialize (VMap m)
       = "{" +:+ join "," (map (fun kv => json.quote kv.1 +:+ ":" +:+ kv.2)
                               (sorted_entries (json.Marshal <$> m))) +:+ "}")
  ∧ (∀ (F64 : Type) (F : Float64 F64) (v : Value F64),
       match v with
       | VMap _ => True
       | _ => serialize v = fmt.Sprint v
       end)
  ∧ (∀ (F64 : Type) (F : Float64 F64) (s : string),
       serialize (F64 := F64) (VString s) = s)
  ∧ (∀ (F64 : Type) (F : Float64 F64) (one : F64),
       serialize (VMap {["a" := VFloat one]})
       = "{" +:+ String json.dquote ("a" +:+ String json.dquote (":" +:+ FormatJSON one +:+ "}")))
  ∧ serialize (VMap {["a" := VFloat (lit 1 I)]})
    = String "{" (String json.dquote (String "a" (String json.dquote ":1}")))
  ∧ String.length (serialize (VMap {["a" := VFloat (lit 1 I)]})) = 7%nat
  ∧ serialize (F64 := smallint) (VString "ok") = "ok"
  ∧ String.length (serialize (F64 := smallint) (VString "ok")) = 2%nat.
Proof.
  split_and!; try done.
  intros F64 F v. by destruct v.
Qed.

(** C4 as stated fails on its own example: the string [ok] renders as
    [ok], which is two bytes long and not three. *)
Lemma serialize_ok_is_not_three_bytes :
  serialize (F64 := smallint) (VString "ok") = "ok"
  ∧ String.length (serialize (F64 := smallint) (VString "ok")) = 2%nat
  ∧ Nat.eqb (String.length (serialize (F64 := smallint) (VString "ok"))) 3 = false.
Proof. by split_and!. Qed.

(** ** Loading: the claims *)

Section Loading.
Context {Lit F64 : Type} `{Literal Lit F64}.

Import MockDefinition MockResponseDefinition json.

(** Bytes that are not a JSON text fail the load of the file. *)
Lemma loadMockFromJson_invalid (fs : os.FileSystem Lit) (filepath : string) :
  os.ReadFile fs filepath = inr None ->
  loadMockFromJson (F64 := F64) fs filepath = ([], Some (ErrInvalidJson filepath)).
Proof. intros Hr. unfold loadMockFromJson. by rewrite Hr. Qed.

(** C6. For a file holding the JSON text [j], the array shape is tried
    first and the single-definition shape only after it failed, and the
    result is that of the first that succeeds.  By the shape of [j]: an
    array gives one definition per element, in order, when every element
    decodes, and an error otherwise; an object gives the one definition
    it decodes to, or an error; [null] gives no definition; any other
    text gives an error.  An error comes with no definition. *)
Theorem loadMockFromJson_shapes (fs : os.FileSystem Lit) (filepath : string)
    (j : JSON Lit) :
  os.ReadFile fs filepath = inr (Some j) ->
  loadMockFromJson (F64 := F64) fs filepath
  = match Unmarshal_list (Some j) with
    | inr listOfMocks => (listOfMocks, None)
    | inl _ =>
        match Unmarshal_mock (Some j) with
        | inr mock => ([mock], None)
        | inl err => ([], Some err)
        end
    end
  ∧ loadMockFromJson (F64 := F64) fs filepath
    = match j with
      | JArray elems =>
          match mapM (fun x => decode_mock x zero_mock) elems with
          | Some listOfMocks => (listOfMocks, None)
          | None => ([], Some ErrUnmarshalType)
          end
      | JObject _ =>
          match decode_mock j zero_mock with
          | Some mock => ([mock], None)
          | None => ([], Some ErrUnmarshalType)
          end
      | JNull => ([], None)
      | _ => ([], Some ErrUnmarshalType)
      end
  ∧ (∀ (elems : list (JSON Lit)) (listOfMocks : list (MockDefinition.t F64)),
       j = JArray elems ->
       loadMockFromJson fs filepath = (listOfMocks, None) ->
       length listOfMocks = length elems
       ∧ Forall2 (fun x mock => decode_mock x zero_mock = Some mock) elems listOfMocks).
Proof.
  intros Hr. unfold loadMockFromJson. rewrite Hr. cbn [Valid negb].
  split_and!.
  - done.
  - destruct j as [| | | |elems|members]; cbn; try done.
    + by destruct (mapM _ elems).
    + by destruct (foldM _ members _).
  - intros elems l ->. cbn.
    destruct (mapM _ elems) as [l'|] eqn:Hm; cbn; [|done].
    intros [= <-]. split.
    + symmetry. by eapply length_mapM.
    + by apply mapM_Some.
Qed.

(** The send of [loadMocks] keeps the channel within its capacity. *)
Lemma send_within (c c' : chan.t) (x : string) :
  chan.send c x = Ret c' ->
  chan.cap c' = chan.cap c ∧ (length (chan.buf c') <= chan.cap c')%nat.
Proof.
  unfold chan.send. destruct (decide _) as [Hlt|]; [|done].
  intros [= <-]. cbn. rewrite length_app. cbn. split; [done|lia].
Qed.

Lemma loadMockFromJson_not_limit (fs : os.FileSystem Lit) (filepath : string)
    (l : list (MockDefinition.t F64)) (limit : Z) :
  loadMockFromJson fs filepath ≠ (l, Some (ErrMaxDirectoryCount limit)).
Proof.
  unfold loadMockFromJson.
  destruct (os.ReadFile fs filepath) as [e|content]; [done|].
  destruct (negb (Valid content)); [done|].
  destruct (Unmarshal_list content); [|done].
  destruct content as [j|]; cbn; [|done].
  by destruct (decode_mock j zero_mock).
Qed.

(** The inner loop of [loadMocks] never leaves with the limit error and
    keeps the channel within its capacity. *)
Lemma range_entries_within (fs : os.FileSystem Lit) (dirpath : string)
    (entries : list os.DirEntry) :
  ∀ (mocks : list (MockDefinition.t F64)) (dirStack : chan.t),
    (length (chan.buf dirStack) <= chan.cap dirStack)%nat ->
    match range_entries fs dirpath entries mocks dirStack with
    | Ret (Continue (_, dirStack')) =>
        chan.cap dirStack' = chan.cap dirStack
        ∧ (length (chan.buf dirStack') <= chan.cap dirStack')%nat
    | Ret (Return (_, Some (ErrMaxDirectoryCount _))) => False
    | _ => True
    end.
Proof.
  induction entries as [|entry entries IH]; intros mocks dirStack Hle; cbn.
  - done.
  - destruct (os.IsDir entry).
    + destruct (chan.send dirStack _) as [c'| | |] eqn:Hs; cbn; try done.
      apply send_within in Hs as [Hcap Hle'].
      specialize (IH mocks c' Hle'). rewrite <- Hcap.
      destruct (range_entries fs dirpath entries mocks c') as [[[? ?]|[? [[]|]]]| | |];
        done.
    + destruct (String.eqb _ ".json"); [|by apply IH].
      pose proof (loadMockFromJson_not_limit fs (path.Join dirpath (os.Name entry)))
        as Hnl.
      destruct (loadMockFromJson fs _) as [l [e|]]; [|by apply IH].
      destruct e; try done. by specialize (Hnl l limit).
Qed.

(** The text of the limit error names the limit. *)
Example Error_limit :
  Error (ErrMaxDirectoryCount MAX_DIRECTORY_COUNT) = "max directory count of 20 exceeded".
Proof. reflexivity. Qed.

(** The loop of [loadMocks] never returns the limit error: on a channel
    of capacity at most the limit, the test of the limit is never true. *)
Lemma loadMocks_loop_not_limit (fs : os.FileSystem Lit) (fuel : nat) :
  ∀ (mocks : list (MockDefinition.t F64)) (dirStack : chan.t),
    (length (chan.buf dirStack) <= chan.cap dirStack)%nat ->
    (Z.of_nat (chan.cap dirStack) <= MAX_DIRECTORY_COUNT) ->
    ∀ (l : list (MockDefinition.t F64)) (limit : Z),
      loadMocks_loop fuel fs mocks dirStack ≠ Ret (l, Some (ErrMaxDirectoryCount limit)).
Proof.
  induction fuel as [|fuel IH]; intros mocks dirStack Hle Hcap l limit; [done|].
  cbn [loadMocks_loop].
  destruct (chan.len dirStack >? 0); [|done].
  destruct (Z.gtb_spec (chan.len dirStack) MAX_DIRECTORY_COUNT) as [Hgt|_].
  { unfold chan.len in Hgt. lia. }
  unfold chan.recv. destruct (chan.buf dirStack) as [|dirpath rest] eqn:Hbuf; [done|].
  cbn. destruct (os.ReadDir fs dirpath) as [e|entries]; [done|].
  pose proof (range_entries_within fs dirpath entries mocks
                {| chan.buf := rest; chan.cap := chan.cap dirStack |}) as Hin.
  cbn in Hin. cbn in Hle.
  specialize (Hin ltac:(lia)).
  destruct (range_entries fs dirpath entries mocks _) as [[[m c]|[m [e|]]]| | |];
    cbn; try done.
  - destruct Hin as [Hc Hl]. apply IH; [done|]. rewrite Hc. done.
  - destruct e; try done.
Qed.

End Loading.

(** C2, on the code.  A root with 21 subdirectories, one more than the
    limit of 20, has 21 directories pending at once.  [loadMocks] does
    not return the limit error for it: the 21st send finds the channel
    full and blocks for ever, whatever the budget.  A root with 20
    subdirectories loads.  For no tree at all does [loadMocks] return
    the limit error. *)
Theorem loadMocks_wide_tree_blocks :
  (∀ fuel : nat, loadMocks (S fuel) (wide_fs 21) "mocks" = Blocked)
  ∧ length (subdirectories 21) = 21%nat
  ∧ (∀ fuel : nat, loadMocks (22 + fuel) (wide_fs 20) "mocks" = Ret ([], None))
  ∧ (∀ (Lit F64 : Type) (L : Literal Lit F64) (fuel : nat) (fs : os.FileSystem Lit)
       (dirpath : string) (l : list (MockDefinition.t F64)) (limit : Z),
       loadMocks fuel fs dirpath = Ret (l, Some (ErrMaxDirectoryCount limit)) -> False).
Proof.
  split_and!.
  - intros fuel. reflexivity.
  - reflexivity.
  - intros fuel. reflexivity.
  - intros Lit F64 L fuel fs dirpath l limit. unfold loadMocks.
    change (chan.send (chan.make MAX_DIRECTORY_COUNT) dirpath)
      with (Ret {| chan.buf := [dirpath]; chan.cap := 20 |}).
    cbn [mbind outcome_bind]. apply loadMocks_loop_not_limit.
    + cbn. lia.
    + done.
Qed.

(** ** The claims on concrete inputs *)


(** C3 on the same definitions: a DELETE request finds no pair. *)
Lemma dispatch_no_match_404_witness :
  handler (routeChain (main_routes demo_mocks)) users_get http.fresh
          (demo_request "DELETE")
  = Ret {| http.Header := ∅; http.status := Some 404; http.body := "" |}.
Proof.
  refine (proj2 (dispatch_no_match_404 (routeChain (main_routes demo_mocks)) users_get
                   {| RouteChain.Handler := handler_closure users_get;
                      RouteChain.Middleware :=
                        [ middleware_of users_get;
                          middleware_of users_get_again;
                          middleware_of users_post ] |}
                   (demo_request "DELETE") eq_refl _)).
  repeat constructor; discriminate.
Defined.


(** C6 on a file holding an array of two definitions. *)
Lemma loadMockFromJson_shapes_witness :
  loadMockFromJson demo_fs "mocks/items.json"
  = ([ demo_mock "/items" "GET" (VMap {["a" := VFloat (lit 1 I)]}) ∅ 201;
       demo_mock "/items" "DELETE" VNil ∅ 0 ], None).
Proof.
  exact (proj1 (proj2 (loadMockFromJson_shapes demo_fs "mocks/items.json"
                         demo_document eq_refl))).
Defined.

(** The whole program on the demo tree: the file is found, its two
    definitions are loaded in order, and each method of the endpoint is
    served by its own definition; a third method gets 404. *)
Example load_demo_tree (fuel : nat) :
  loadMocks (3 + fuel) demo_fs "mocks"
  = Ret ([ demo_mock "/items" "GET" (VMap {["a" := VFloat (lit 1 I)]}) ∅ 201;
           demo_mock "/items" "DELETE" VNil ∅ 0 ], None).
Proof. reflexivity. Qed.

Example serve_demo_tree :
  let s := main_routes
             [ demo_mock "/items" "GET" (VMap {["a" := VFloat (lit 1 I)]}) ∅ 201;
               demo_mock "/items" "DELETE" VNil ∅ 0 ] in
  ServeHTTP s {| http.Method := "GET"; http.Pattern := "/items" |}
  = Some (Ret {| http.Header := (fun value => [value]) <$> base_headers;
                 http.status := Some 201;
                 http.body := String "{" (String json.dquote
                                (String "a" (String json.dquote ":1}"))) |})
  ∧ ServeHTTP s {| http.Method := "DELETE"; http.Pattern := "/items" |}
    = Some (Ret {| http.Header := (fun value => [value]) <$> base_headers;
                   http.status := Some 200;
                   http.body := "<nil>" |})
  ∧ ServeHTTP s {| http.Method := "PUT"; http.Pattern := "/items" |}
    = Some (Ret {| http.Header := ∅; http.status := Some 404; http.body := "" |})
  ∧ ServeHTTP s {| http.Method := "GET"; http.Pattern := "/other" |} = None.
Proof. cbv zeta. split_and!; reflexivity. Qed.

(** A declared [Content-Type] replaces the base one. *)
Example serve_declared_content_type :
  ServeHTTP (main_routes demo_mocks) (demo_request "POST")
  = Some (Ret {| http.Header :=
                   {[ "Content-Type" := ["text/plain"]; "Server" := ["mock-server"] ]};
                 http.status := Some 201;
                 http.body := "<nil>" |}).
Proof. reflexivity. Qed.

(** What [filepath.Ext] and the member lookup do on some names. *)
Example Ext_examples :
  filepath.Ext "items.json" = ".json"
  ∧ filepath.Ext ".json" = ".json"
  ∧ filepath.Ext "items.json.bak" = ".bak"
  ∧ filepath.Ext "json" = "".
Proof. by split_and!. Qed.

Example selects_examples :
  json.selects "statusCode" "statusCode" = true
  ∧ json.selects "STATUSCODE" "statusCode" = true
  ∧ json.selects "status_code" "statusCode" = false.
Proof. by split_and!. Qed.


(** * Further properties of the code *)

(** ** Serving, for any definitions and any request *)

Section Serving.
Context {F64 : Type} `{Float64 F64}.

Import MockDefinition MockResponseDefinition.

Implicit Types (mock : MockDefinition.t F64) (mocks : list (MockDefinition.t F64)).

(** The answer when the definitions of the matched endpoint split at the
    first one of the request's method. *)
Lemma ServeHTTP_split mocks (r : http.Request)
    (pre post : list (MockDefinition.t F64)) (D : MockDefinition.t F64) :
  filter (fun m => Endpoint m = http.Pattern r) mocks = pre ++ D :: post ->
  Forall (fun m => Method m ≠ http.Method r) pre ->
  Method D = http.Method r ->
  ServeHTTP (main_routes mocks) r
  = Some (Ret {| http.Header :=
                   (fun value => [value]) <$> (Headers (Response D) ∪ base_headers);
                 http.status :=
                   Some (if StatusCode (Response D) =? 0 then 200
                         else StatusCode (Response D));
                 http.body := serialize (Body (Response D)) |}).
Proof.
  intros Hf Hpre Hm.
  rewrite (ServeHTTP_registered mocks r _ Hf) by (rewrite length_app; cbn; lia).
  f_equal. unfold dispatch. rewrite <- length_fmap with (f := middleware_of).
  rewrite fmap_app, fmap_cons.
  pose proof (next_first_match r (middleware_of <$> pre) (middleware_of <$> post)
                (middleware_of D) 0 http.fresh) as Hnext.
  rewrite Nat.add_0_r in Hnext. rewrite Hnext.
  - cbn [middleware_of ChainMiddleware.Handler]. by rewrite handleMockResponse_fresh.
  - apply Forall_fmap. eapply Forall_impl; [exact Hpre|]. done.
  - done.
Qed.


(** X1. A request is left to the mux (no handler of the program runs)
    exactly when no definition names the matched pattern. *)
Theorem ServeHTTP_unregistered_iff mocks (r : http.Request) :
  ServeHTTP (main_routes mocks) r = None
  ↔ Forall (fun m => Endpoint m ≠ http.Pattern r) mocks.
Proof.
  rewrite ServeHTTP_main_routes. split.
  - intros Hnone. apply Forall_forall. intros m Hm He.
    assert (m ∈ filter (fun m => Endpoint m = http.Pattern r) mocks) as Hin
      by (by apply list_elem_of_filter).
    destruct (filter _ mocks); [by apply elem_of_nil in Hin | done].
  - intros Hall. destruct (filter _ mocks) as [|a l] eqn:Hf; [done|].
    assert (a ∈ filter (fun m => Endpoint m = http.Pattern r) mocks) as Hin
      by (rewrite Hf; left).
    apply list_elem_of_filter in Hin as [He Hin].
    rewrite Forall_forall in Hall. by destruct (Hall a Hin).
Qed.


(** X3. Definitions of other endpoints never change the answer to a
    request: it is the one of the server built from the definitions of
    the matched pattern alone. *)
Theorem ServeHTTP_ignores_other_endpoints mocks (r : http.Request) :
  ServeHTTP (main_routes mocks) r
  = ServeHTTP (main_routes (filter (fun m => Endpoint m = http.Pattern r) mocks)) r.
Proof.
  rewrite !ServeHTTP_main_routes.
  by rewrite list_filter_filter_l.
Qed.

(** X4. Once a definition answers a request, definitions loaded after
    it never change that answer: the earlier definition stays in front
    of any later one of the same endpoint and method. *)
Theorem ServeHTTP_later_definitions_shadowed mocks (r : http.Request)
    (i : nat) (D : MockDefinition.t F64) (more : list (MockDefinition.t F64)) :
  list_find (fun m => Endpoint m = http.Pattern r ∧ Method m = http.Method r) mocks
    = Some (i, D) ->
  ServeHTTP (main_routes (mocks ++ more)) r = ServeHTTP (main_routes mocks) r.
Proof.
  intros Hfind.
  apply list_find_filter in Hfind as (pre & post & Hf & Hpre & _ & Hm).
  rewrite (ServeHTTP_split mocks r pre post D Hf Hpre Hm).
  apply (ServeHTTP_split (mocks ++ more) r pre
           (post ++ filter (fun m => Endpoint m = http.Pattern r) more) D);
    [|done|done].
  rewrite filter_app, Hf. by rewrite <- (assoc_L (++)).
Qed.

End Serving.

(** ** The chain with responders that pass the request on *)

Section Passing.

Implicit Types (middlewares : list ChainMiddleware.t) (r : http.Request).

(** The scan resumed behind index [length seen - 1] on the writer [w0]. *)
Lemma next_resume r (seen mid post : list ChainMiddleware.t)
    (middleware : ChainMiddleware.t) (w0 : http.ResponseWriter) (extra : nat) :
  Forall (fun m => ChainMiddleware.Method m ≠ http.Method r) mid ->
  ChainMiddleware.Method middleware = http.Method r ->
  next (S (length (mid ++ middleware :: post)) + extra)
       (seen ++ mid ++ middleware :: post) r None
       {| w := w0; currentMidleware := Z.of_nat (length seen) - 1 |}
  = ChainMiddleware.Handler middleware r
      (next (S (length post) + extra) (seen ++ mid ++ middleware :: post) r)
      {| w := w0; currentMidleware := Z.of_nat (length seen + length mid) |}.
Proof.
  intros Hmid Hm.
  pose proof (next_scan r mid Hmid seen (middleware :: post)
                (S (S (length post) + extra)) w0) as Hscan.
  replace (S (length (mid ++ middleware :: post)) + extra)%nat
    with (length mid + S (S (length post) + extra))%nat
    by (rewrite length_app; cbn [length]; lia).
  rewrite Hscan.
  rewrite (next_at _ _ _ _ (length seen + length mid) middleware).
  2:{ rewrite lookup_app_r by lia. rewrite lookup_app_r by lia.
      replace (length seen + length mid - length seen - length mid)%nat with 0%nat by lia.
      done. }
  rewrite Hm, String.eqb_refl. done.
Qed.

(** X5. A responder that calls [next] with nil, after any effect [f] on
    the writer, passes the request on: the scan goes on behind it and
    the next pair of the request's method runs, on the writer the first
    responder left and with the index on that later pair. *)
Theorem dispatch_pass_to_later_pair r
    (pre mid post : list ChainMiddleware.t) (m1 m2 : ChainMiddleware.t)
    (f : http.ResponseWriter -> http.ResponseWriter) (w0 : http.ResponseWriter) :
  Forall (fun m => ChainMiddleware.Method m ≠ http.Method r) pre ->
  ChainMiddleware.Method m1 = http.Method r ->
  (forall k st, ChainMiddleware.Handler m1 r k st = k None (on_w f st)) ->
  Forall (fun m => ChainMiddleware.Method m ≠ http.Method r) mid ->
  ChainMiddleware.Method m2 = http.Method r ->
  next (S (length (pre ++ m1 :: mid ++ m2 :: post))) (pre ++ m1 :: mid ++ m2 :: post)
       r None {| w := w0; currentMidleware := -1 |}
  = ChainMiddleware.Handler m2 r
      (next (S (length post)) (pre ++ m1 :: mid ++ m2 :: post) r)
      {| w := f w0; currentMidleware := Z.of_nat (length pre + 1 + length mid) |}.
Proof.
  intros Hpre Hm1 Hpass Hmid Hm2.
  pose proof (next_first_match r pre (mid ++ m2 :: post) m1 0 w0 Hpre Hm1) as Hfirst.
  rewrite !Nat.add_0_r in Hfirst. rewrite Hfirst, Hpass. unfold on_w. cbn [w currentMidleware].
  pose proof (next_resume r (pre ++ [m1]) mid post m2 (f w0) 0 Hmid Hm2) as Hres.
  rewrite !Nat.add_0_r in Hres. rewrite <- !(assoc_L (++)) in Hres. cbn [app] in Hres.
  replace (length (pre ++ [m1])) with (length pre + 1)%nat in Hres
    by (by rewrite length_app).
  replace (Z.of_nat (length pre + 1) - 1) with (Z.of_nat (length pre)) in Hres by lia.
  exact Hres.
Qed.

(** X6. When the passing responder is the last pair of the request's
    method, the chain ends with 404 on the writer that responder left. *)
Theorem dispatch_pass_to_end r
    (pre rest : list ChainMiddleware.t) (m1 : ChainMiddleware.t)
    (f : http.ResponseWriter -> http.ResponseWriter) (w0 : http.ResponseWriter) :
  Forall (fun m => ChainMiddleware.Method m ≠ http.Method r) pre ->
  ChainMiddleware.Method m1 = http.Method r ->
  (forall k st, ChainMiddleware.Handler m1 r k st = k None (on_w f st)) ->
  Forall (fun m => ChainMiddleware.Method m ≠ http.Method r) rest ->
  next (S (length (pre ++ m1 :: rest))) (pre ++ m1 :: rest)
       r None {| w := w0; currentMidleware := -1 |}
  = Ret {| w := http.WriteHeader 404 (f w0);
           currentMidleware := Z.of_nat (length (pre ++ m1 :: rest)) |}.
Proof.
  intros Hpre Hm1 Hpass Hrest.
  pose proof (next_first_match r pre rest m1 0 w0 Hpre Hm1) as Hfirst.
  rewrite !Nat.add_0_r in Hfirst. rewrite Hfirst, Hpass. unfold on_w. cbn [w currentMidleware].
  pose proof (next_scan r rest Hrest (pre ++ [m1]) [] 1 (f w0)) as Hscan.
  rewrite (right_id_L [] (++)) in Hscan.
  rewrite <- !(assoc_L (++)) in Hscan. cbn [app] in Hscan.
  replace (length (pre ++ [m1])) with (length pre + 1)%nat in Hscan
    by (by rewrite length_app).
  replace (Z.of_nat (length pre + 1) - 1) with (Z.of_nat (length pre)) in Hscan by lia.
  replace (S (length rest)) with (length rest + 1)%nat by lia.
  rewrite Hscan.
  pose proof (next_end 0 (pre ++ m1 :: rest) r (f w0)) as Hend.
  rewrite length_app in Hend. cbn [length] in Hend.
  replace (Z.of_nat (length pre + 1 + length rest) - 1)
    with (Z.of_nat (length pre + S (length rest)) - 1) by lia.
  rewrite Hend. do 2 f_equal. rewrite length_app. cbn [length]. done.
Qed.


End Passing.

(** ** The route table as a whole *)

Section Table.
Context {F64 : Type} `{Float64 F64}.

Import MockDefinition MockResponseDefinition.

Implicit Types (mock : MockDefinition.t F64) (mocks : list (MockDefinition.t F64)).

Lemma endpoint_elem_filter mocks (e : string) :
  e ∈ Endpoint <$> mocks ↔ filter (fun m => Endpoint m = e) mocks ≠ [].
Proof.
  split.
  - intros (m & -> & Hin)%list_elem_of_fmap Hf.
    by apply (filter_nil_not_elem_of _ _ m Hf).
  - intros Hne. destruct (filter _ mocks) as [|a l] eqn:Hf; [done|].
    assert (a ∈ filter (fun m => Endpoint m = e) mocks) as Hin by (rewrite Hf; left).
    apply list_elem_of_filter in Hin as [<- Hin].
    by apply list_elem_of_fmap_2.
Qed.

(** X8. The keys of the route table are exactly the endpoints of the
    definitions; the patterns registered on the mux are exactly those
    keys; and there are as many registrations as entries. *)
Theorem route_table_keys mocks :
  dom (routeChain (main_routes mocks)) = list_to_set (Endpoint <$> mocks)
  ∧ list_to_set (mux (main_routes mocks)).*1 = dom (routeChain (main_routes mocks))
  ∧ length (mux (main_routes mocks)) = size (routeChain (main_routes mocks)).
Proof.
  destruct (mux_main_routes mocks) as [Hnd Hin].
  assert (dom (routeChain (main_routes mocks))
          = (list_to_set (Endpoint <$> mocks) : gset string)) as Hdom.
  { apply set_eq. intros e.
    rewrite elem_of_dom, routeChain_main_routes, elem_of_list_to_set.
    rewrite endpoint_elem_filter.
    destruct (filter _ mocks); split; try done. }
  assert ((list_to_set (mux (main_routes mocks)).*1 : gset string)
          = dom (routeChain (main_routes mocks))) as Hmux.
  { rewrite Hdom. apply set_eq. intros e. rewrite !elem_of_list_to_set.
    rewrite endpoint_elem_filter. split.
    - intros ([e' h] & -> & Hel)%list_elem_of_fmap.
      apply Hin in Hel as (first & rest & Hf & _). cbn. by rewrite Hf.
    - intros Hne. destruct (filter _ mocks) as [|first rest] eqn:Hf; [done|].
      apply list_elem_of_fmap. exists (e, handler_closure first). split; [done|].
      apply Hin. eauto. }
  split_and!; [done|done|].
  rewrite <- (size_dom (D := gset string)), <- Hmux, size_list_to_set by done.
  by rewrite length_fmap.
Qed.

(** X9. Every entry of the route table is consistent with the mux: the
    dispatcher it holds is the one registered for its key, the
    definition that dispatcher captured names that key, and calling the
    dispatcher runs the chain of that very entry. *)
Theorem route_entry_dispatcher mocks (e : string) (chain : RouteChain.t F64)
    (w0 : http.ResponseWriter) (r : http.Request) :
  routeChain (main_routes mocks) !! e = Some chain ->
  (e, RouteChain.Handler chain) ∈ mux (main_routes mocks)
  ∧ (∃ first, RouteChain.Handler chain = handler_closure first ∧ Endpoint first = e)
  ∧ call (routeChain (main_routes mocks)) (RouteChain.Handler chain) w0 r
    = dispatch (S (length (RouteChain.Middleware chain))) (RouteChain.Middleware chain) w0 r.
Proof.
  intros Hc. pose proof Hc as Hc'. rewrite routeChain_main_routes in Hc'.
  destruct (filter (fun m => Endpoint m = e) mocks) as [|first rest] eqn:Hf; [done|].
  injection Hc' as <-. cbn [RouteChain.Handler RouteChain.Middleware].
  assert (Endpoint first = e) as He.
  { assert (first ∈ filter (fun m => Endpoint m = e) mocks) as Hin by (rewrite Hf; left).
    by apply list_elem_of_filter in Hin as [? _]. }
  split_and!.
  - apply (proj2 (mux_main_routes mocks)). eauto.
  - eauto.
  - unfold call, handler. rewrite He, routeChain_main_routes, Hf. done.
Qed.

(** The number of pairs held by a route table. *)
Lemma pairs_insert (rc : gmap string (RouteChain.t F64)) (e : string)
    (chain : RouteChain.t F64) :
  map_fold (fun _ c n => (length (RouteChain.Middleware c) + n)%nat) 0%nat (<[e := chain]> rc)
  = (length (RouteChain.Middleware chain)
     + map_fold (fun _ c n => (length (RouteChain.Middleware c) + n)%nat) 0%nat (delete e rc))%nat.
Proof.
  rewrite <- insert_delete_eq.
  rewrite (map_fold_insert_L (fun _ c n => (length (RouteChain.Middleware c) + n)%nat)).
  - done.
  - intros. lia.
  - apply lookup_delete_eq.
Qed.

Lemma pairs_lookup (rc : gmap string (RouteChain.t F64)) (e : string) :
  map_fold (fun _ c n => (length (RouteChain.Middleware c) + n)%nat) 0%nat rc
  = (match rc !! e with
     | Some chain => length (RouteChain.Middleware chain)
     | None => 0
     end
     + map_fold (fun _ c n => (length (RouteChain.Middleware c) + n)%nat) 0%nat (delete e rc))%nat.
Proof.
  destruct (rc !! e) as [chain|] eqn:Hc.
  - rewrite <- (insert_id rc e chain Hc) at 1. apply pairs_insert.
  - by rewrite delete_id.
Qed.

(** X10. No definition is lost and none is counted twice: the pairs of
    all the entries of the route table are as many as the definitions
    consumed. *)
Theorem route_table_pair_count mocks :
  map_fold (fun _ chain n => (length (RouteChain.Middleware chain) + n)%nat) 0%nat
           (routeChain (main_routes mocks))
  = length mocks.
Proof.
  induction mocks as [|mock mocks IH] using rev_ind; [done|].
  rewrite main_routes_snoc, length_app. cbn [length].
  rewrite (pairs_lookup _ (Endpoint mock)) in IH.
  unfold main_step, generateMockHandler.
  destruct (routeChain (main_routes mocks) !! Endpoint mock) as [chain|];
    cbn [routeChain]; rewrite pairs_insert; cbn [RouteChain.Middleware];
    [rewrite length_app|]; cbn [length app]; lia.
Qed.

End Table.

(** ** The loader, for any file system *)

Section Traversal.
Context {Lit F64 : Type} `{Literal Lit F64}.

Import MockDefinition MockResponseDefinition json.

Implicit Types (fs : os.FileSystem Lit) (mocks : list (MockDefinition.t F64)).

(** [loadMockFromJson] returns an error with no definition. *)
Lemma loadMockFromJson_error_nil fs (filepath : string)
    (l : list (MockDefinition.t F64)) (err : error) :
  loadMockFromJson fs filepath = (l, Some err) -> l = [].
Proof.
  unfold loadMockFromJson.
  destruct (os.ReadFile fs filepath) as [e|content]; [by intros [= <- _]|].
  destruct (negb (Valid content)); [by intros [= <- _]|].
  destruct (Unmarshal_list content); [|done].
  destruct (Unmarshal_mock content); [by intros [= <- _]|done].
Qed.

(** The inner loop leaves the function only with an error and no
    definition. *)
Lemma range_entries_return fs (dirpath : string) (entries : list os.DirEntry) :
  ∀ mocks (dirStack : chan.t) (l : list (MockDefinition.t F64)) (e : option error),
    range_entries fs dirpath entries mocks dirStack = Ret (Return (l, e)) ->
    l = [] ∧ is_Some e.
Proof.
  induction entries as [|entry entries IH]; intros mocks dirStack l e; cbn; [done|].
  destruct (os.IsDir entry).
  - destruct (chan.send dirStack _); cbn; try done; apply IH.
  - destruct (String.eqb _ ".json"); [|apply IH].
    destruct (loadMockFromJson fs _) as [l' [err|]]; [|apply IH].
    intros [= <- <-]. eauto.
Qed.

Lemma loadMocks_loop_error_nil (fuel : nat) fs :
  ∀ mocks (dirStack : chan.t) (l : list (MockDefinition.t F64)) (err : error),
    loadMocks_loop fuel fs mocks dirStack = Ret (l, Some err) -> l = [].
Proof.
  induction fuel as [|fuel IH]; intros mocks dirStack l err; [done|].
  cbn [loadMocks_loop].
  destruct (chan.len dirStack >? 0); [|done].
  destruct (chan.len dirStack >? MAX_DIRECTORY_COUNT);
    [intros Heq; by simplify_eq|].
  destruct (chan.recv dirStack) as [[d c]| | |]; cbn; try done.
  destruct (os.ReadDir fs d) as [e|entries]; [intros Heq; by simplify_eq|].
  destruct (range_entries fs d entries mocks c) as [[[m c']|[l' e']]| | |] eqn:Hr;
    cbn; try done.
  - apply IH.
  - apply range_entries_return in Hr as [-> _]. intros Heq. by simplify_eq.
Qed.

(** X11. [loadMocks] never returns definitions together with an error:
    when it returns an error the slice is nil, whatever was loaded
    before the failure. *)
Theorem loadMocks_error_no_partial (fuel : nat) fs (dirpath : string)
    (l : list (MockDefinition.t F64)) (err : error) :
  loadMocks fuel fs dirpath = Ret (l, Some err) -> l = [].
Proof.
  unfold loadMocks.
  destruct (chan.send _ dirpath) as [dirStack| | |]; cbn; try done.
  apply loadMocks_loop_error_nil.
Qed.

(** The inner loop over a listing in two parts. *)
Lemma range_entries_app fs (dirpath : string) (l1 l2 : list os.DirEntry) :
  ∀ mocks (dirStack : chan.t),
    range_entries fs dirpath (l1 ++ l2) mocks dirStack
    = match range_entries fs dirpath l1 mocks dirStack with
      | Ret (Continue (mocks', dirStack')) => range_entries fs dirpath l2 mocks' dirStack'
      | other => other
      end.
Proof.
  induction l1 as [|entry l1 IH]; intros mocks dirStack; cbn; [done|].
  destruct (os.IsDir entry).
  - destruct (chan.send dirStack _); cbn; try done; apply IH.
  - destruct (String.eqb _ ".json"); [|apply IH].
    destruct (loadMockFromJson fs _) as [l' [err|]]; [done|apply IH].
Qed.

(** The inner loop when every file loads and the channel has room: the
    definitions of the files are appended in listing order, and the
    subdirectories are queued behind what was pending. *)
Lemma range_entries_continue fs (dirpath : string) (entries : list os.DirEntry) :
  ∀ mocks (dirStack : chan.t),
    Forall (fun p => (loadMockFromJson (F64 := F64) fs p).2 = None)
           (loaded_paths dirpath entries) ->
    (length (chan.buf dirStack) + length (sent_paths dirpath entries)
       <= chan.cap dirStack)%nat ->
    range_entries fs dirpath entries mocks dirStack
    = Ret (Continue
             (mocks ++ concat ((fun p => (loadMockFromJson fs p).1)
                                 <$> loaded_paths dirpath entries),
              {| chan.buf := chan.buf dirStack ++ sent_paths dirpath entries;
                 chan.cap := chan.cap dirStack |})).
Proof.
  unfold loaded_paths, sent_paths.
  induction entries as [|entry entries IH]; intros mocks [buf cap] Hload Hroom.
  - cbn. by rewrite !(right_id_L [] (++)).
  - cbn [range_entries]. rewrite !filter_cons in *.
    destruct (os.IsDir entry) eqn:Hd.
    + rewrite decide_True in * by done.
      rewrite decide_False in * by (intros [? _]; done).
      rewrite fmap_cons, length_cons in Hroom. cbn in Hroom.
      unfold chan.send. cbn [chan.buf chan.cap].
      rewrite decide_True by lia. cbn [mbind outcome_bind].
      rewrite IH; [|done|cbn; rewrite length_app; cbn; lia].
      cbn. by rewrite <- (assoc_L (++)).
    + rewrite (decide_False (P := false = true)) in * by done.
      destruct (String.eqb_spec (filepath.Ext (os.Name entry)) ".json") as [He|He].
      * rewrite decide_True in * by done.
        rewrite fmap_cons in Hload. apply Forall_cons in Hload as [Hok Hload].
        destruct (loadMockFromJson fs (path.Join dirpath (os.Name entry)))
          as [l [err|]] eqn:Hl; [done|].
        rewrite IH by done. cbn. by rewrite Hl, <- (assoc_L (++)).
      * rewrite decide_False in * by (intros [_ ?]; done).
        by apply IH.
Qed.

(** X12. An entry that is neither a directory nor a name of extension
    [.json] is never read and changes nothing: the inner loop does the
    same on the listing without such entries. *)
Theorem range_entries_skips_other_files fs (dirpath : string)
    (entries : list os.DirEntry) mocks (dirStack : chan.t) :
  range_entries fs dirpath
    (filter (fun entry => os.IsDir entry = true
                          ∨ filepath.Ext (os.Name entry) = ".json") entries)
    mocks dirStack
  = range_entries fs dirpath entries mocks dirStack.
Proof.
  revert mocks dirStack.
  induction entries as [|entry entries IH]; intros mocks dirStack; [done|].
  rewrite filter_cons. cbn [range_entries].
  destruct (os.IsDir entry) eqn:Hd.
  - rewrite decide_True by (by left). cbn [range_entries]. rewrite Hd.
    destruct (chan.send dirStack _); cbn; try done.
  - destruct (String.eqb_spec (filepath.Ext (os.Name entry)) ".json") as [He|He].
    + rewrite decide_True by (by right). cbn [range_entries]. rewrite Hd.
      rewrite He. cbn.
      by destruct (loadMockFromJson fs _) as [l' [err|]].
    + rewrite decide_False by (intros [?|?]; done). apply IH.
Qed.

(** The first iteration of [loadMocks]: the root is queued, received and
    read, and its listing goes through the inner loop with an empty
    channel. *)
Lemma loadMocks_first (fuel : nat) fs (dirpath : string) (entries : list os.DirEntry) :
  os.ReadDir fs dirpath = inr entries ->
  loadMocks (S fuel) fs dirpath
  = match range_entries (F64 := F64) fs dirpath entries []
            {| chan.buf := []; chan.cap := 20 |} with
    | Ret (Continue (mocks, dirStack)) => loadMocks_loop fuel fs mocks dirStack
    | Ret (Return r) => Ret r
    | Panic => Panic
    | Blocked => Blocked
    | NoFuel => NoFuel
    end.
Proof.
  intros Hr. unfold loadMocks.
  change (chan.send (chan.make MAX_DIRECTORY_COUNT) dirpath)
    with (Ret {| chan.buf := [dirpath]; chan.cap := 20 |}).
  cbn [mbind outcome_bind loadMocks_loop]. cbn. rewrite Hr.
  by destruct (range_entries fs dirpath entries [] _) as [[[m c]|r]| | |].
Qed.

(** X13. Directories are visited first in, first out.  With a directory
    at the head of the channel whose listing can be read, whose mock
    files all load and whose subdirectories fit behind the ones already
    pending, one iteration appends the definitions of its files, in
    listing order, and queues its subdirectories at the back. *)
Theorem loadMocks_loop_fifo (fuel : nat) fs mocks (dirpath : string)
    (pending : list string) (entries : list os.DirEntry) :
  os.ReadDir fs dirpath = inr entries ->
  Forall (fun p => (loadMockFromJson (F64 := F64) fs p).2 = None)
         (loaded_paths dirpath entries) ->
  (length pending + length (sent_paths dirpath entries) <= 20)%nat ->
  (length pending < 20)%nat ->
  loadMocks_loop (S fuel) fs mocks {| chan.buf := dirpath :: pending; chan.cap := 20 |}
  = loadMocks_loop fuel fs
      (mocks ++ concat ((fun p => (loadMockFromJson fs p).1) <$> loaded_paths dirpath entries))
      {| chan.buf := pending ++ sent_paths dirpath entries; chan.cap := 20 |}.
Proof.
  intros Hr Hload Hroom Hlt. cbn [loadMocks_loop].
  unfold chan.len, chan.recv. cbn [chan.buf chan.cap length].
  destruct (Z.gtb_spec (Z.of_nat (S (length pending))) 0); [|lia].
  destruct (Z.gtb_spec (Z.of_nat (S (length pending))) MAX_DIRECTORY_COUNT) as [Hgt|_].
  { unfold MAX_DIRECTORY_COUNT in Hgt. lia. }
  cbn [mbind outcome_bind]. rewrite Hr.
  rewrite (range_entries_continue fs dirpath entries mocks
             {| chan.buf := pending; chan.cap := 20 |} Hload) by (cbn; lia).
  done.
Qed.

(** X14. A directory without subdirectories whose mock files all load:
    the definitions of the files, in listing order. *)
Theorem loadMocks_flat_directory (fuel : nat) fs (dirpath : string)
    (entries : list os.DirEntry) :
  os.ReadDir fs dirpath = inr entries ->
  Forall (fun entry => os.IsDir entry = false) entries ->
  Forall (fun p => (loadMockFromJson (F64 := F64) fs p).2 = None)
         (loaded_paths dirpath entries) ->
  loadMocks (2 + fuel) fs dirpath
  = Ret (concat ((fun p => (loadMockFromJson fs p).1) <$> loaded_paths dirpath entries),
         None).
Proof.
  intros Hr Hflat Hload. change (2 + fuel)%nat with (S (S fuel)).
  rewrite (loadMocks_first _ _ _ entries Hr).
  assert (sent_paths dirpath entries = []) as Hsent.
  { unfold sent_paths.
    replace (filter (fun entry => os.IsDir entry = true) entries) with (@nil os.DirEntry);
      [done|].
    symmetry. clear Hr Hload.
    induction Hflat as [|entry entries Hd _ IH]; [done|].
    rewrite filter_cons, decide_False by (by rewrite Hd). done. }
  rewrite (range_entries_continue fs dirpath entries [] _ Hload)
    by (rewrite Hsent; cbn; lia).
  rewrite Hsent. done.
Qed.

(** X15. One mock file that fails to load fails the whole load, even
    when the files listed before it loaded and whatever is listed after
    it: [loadMocks] returns the error of that file and no definition. *)
Theorem loadMocks_first_bad_file (fuel : nat) fs (dirpath : string)
    (pre post : list os.DirEntry) (bad : os.DirEntry)
    (l : list (MockDefinition.t F64)) (err : error) :
  os.ReadDir fs dirpath = inr (pre ++ bad :: post) ->
  Forall (fun p => (loadMockFromJson (F64 := F64) fs p).2 = None)
         (loaded_paths dirpath pre) ->
  (length (sent_paths dirpath pre) <= 20)%nat ->
  os.IsDir bad = false ->
  filepath.Ext (os.Name bad) = ".json" ->
  loadMockFromJson fs (path.Join dirpath (os.Name bad)) = (l, Some err) ->
  loadMocks (S fuel) fs dirpath = Ret ([], Some err).
Proof.
  intros Hr Hload Hroom Hd He Hbad.
  rewrite (loadMocks_first _ _ _ _ Hr), range_entries_app.
  rewrite (range_entries_continue fs dirpath pre [] _ Hload) by (cbn; lia).
  cbn [range_entries]. rewrite Hd, He. cbn. by rewrite Hbad.
Qed.

(** X16. A root whose listing reaches a twenty-first subdirectory, the
    mock files listed before it having loaded, blocks the loader on the
    send of that subdirectory: the channel already holds twenty paths.
    [loadMocks] does not return, neither definitions nor an error. *)
Theorem loadMocks_blocks_on_wide_root (fuel : nat) fs (dirpath : string)
    (pre post : list os.DirEntry) (d : os.DirEntry) :
  os.ReadDir fs dirpath = inr (pre ++ d :: post) ->
  Forall (fun p => (loadMockFromJson (F64 := F64) fs p).2 = None)
         (loaded_paths dirpath pre) ->
  length (sent_paths dirpath pre) = 20%nat ->
  os.IsDir d = true ->
  loadMocks (F64 := F64) (S fuel) fs dirpath = Blocked.
Proof.
  intros Hr Hload Hfull Hd.
  rewrite (loadMocks_first _ _ _ _ Hr), range_entries_app.
  rewrite (range_entries_continue fs dirpath pre [] _ Hload) by (cbn; lia).
  cbn [range_entries]. rewrite Hd. unfold chan.send. cbn [chan.buf chan.cap app].
  rewrite decide_False by lia. done.
Qed.

End Traversal.

(** ** The extension test *)

Lemma append_empty (s : string) : s +:+ "" = s.
Proof.
  induction s as [|c s IH]; [done|].
  change (String c (s +:+ "") = String c s). by rewrite IH.
Qed.

Lemma Ext_suffix (p : string) : ∃ stem, p = stem +:+ filepath.Ext p.
Proof.
  induction p as [|c rest [stem IH]].
  - by exists "".
  - cbn [filepath.Ext]. destruct (filepath.Ext rest) as [|c' ext] eqn:He.
    + destruct (Ascii.eqb c "." && negb (filepath.has_separator rest)).
      * by exists "".
      * exists (String c rest). by rewrite append_empty.
    + exists (String c stem). change (String c rest = String c (stem +:+ String c' ext)).
      by rewrite <- IH.
Qed.

Lemma Ext_append_json (stem : string) : filepath.Ext (stem +:+ ".json") = ".json".
Proof.
  induction stem as [|c stem IH]; [done|].
  change (filepath.Ext (String c (stem +:+ ".json")) = ".json").
  cbn [filepath.Ext]. by rewrite IH.
Qed.

(** X17. The extension test of [loadMocks] accepts exactly the names
    that end in [.json]: the bare name [.json] and a name with several
    dots among them, a name that goes on after [.json] not. *)
Theorem Ext_json_iff (name : string) :
  filepath.Ext name = ".json" ↔ ∃ stem, name = stem +:+ ".json".
Proof.
  split.
  - intros He. destruct (Ext_suffix name) as [stem Hs]. exists stem. by rewrite <- He.
  - intros [stem ->]. apply Ext_append_json.
Qed.

(** ** Bodies that are arrays *)

(** X18. A body that is an array is not rendered as JSON: an array of
    strings renders as the strings themselves, separated by single
    spaces between square brackets, with neither quotes nor commas. *)
Theorem serialize_array_of_strings {F64 : Type} `{Float64 F64} (ss : list string) :
  serialize (F64 := F64) (VSlice (VString <$> ss)) = "[" +:+ join " " ss +:+ "]".
Proof.
  assert (map (fmt.Sprint (F64 := F64)) (VString <$> ss) = ss) as Hmap.
  { induction ss as [|s ss IH]; [done|].
    rewrite fmap_cons. cbn [map fmt.Sprint]. by rewrite IH. }
  cbn [serialize fmt.Sprint]. by rewrite Hmap.
Qed.

(** ** The further properties on concrete inputs *)

Lemma ServeHTTP_later_definitions_shadowed_witness :
  ServeHTTP (main_routes (demo_mocks ++ [demo_mock "/users" "GET" (VString "late") ∅ 200]))
            (demo_request "GET")
  = ServeHTTP (main_routes demo_mocks) (demo_request "GET").
Proof.
  exact (ServeHTTP_later_definitions_shadowed demo_mocks (demo_request "GET") 0 users_get
           [demo_mock "/users" "GET" (VString "late") ∅ 200] eq_refl).
Defined.

Lemma dispatch_pass_to_later_pair_witness :
  next 5 passing_chain (demo_request "GET") None
       {| w := http.fresh; currentMidleware := -1 |}
  = Ret {| w := {| http.Header := (fun value => [value]) <$> (∅ ∪ base_headers);
                   http.status := Some 201;
                   http.body := "second" |};
           currentMidleware := 3 |}.
Proof.
  refine (dispatch_pass_to_later_pair (demo_request "GET")
            [middleware_of users_post] [middleware_of users_post] []
            {| ChainMiddleware.Method := "GET"; ChainMiddleware.Handler := passing |}
            (middleware_of users_get_again) (fun w0 => w0) http.fresh
            _ eq_refl _ _ eq_refl).
  - repeat constructor; discriminate.
  - intros k [w0 c]. reflexivity.
  - repeat constructor; discriminate.
Defined.

Lemma dispatch_pass_to_end_witness :
  next 4 [ middleware_of users_post;
           {| ChainMiddleware.Method := "GET"; ChainMiddleware.Handler := passing |};
           middleware_of users_post ]
       (demo_request "GET") None {| w := http.fresh; currentMidleware := -1 |}
  = Ret {| w := {| http.Header := ∅; http.status := Some 404; http.body := "" |};
           currentMidleware := 3 |}.
Proof.
  refine (dispatch_pass_to_end (demo_request "GET")
            [middleware_of users_post] [middleware_of users_post]
            {| ChainMiddleware.Method := "GET"; ChainMiddleware.Handler := passing |}
            (fun w0 => w0) http.fresh _ eq_refl _ _).
  - repeat constructor; discriminate.
  - intros k [w0 c]. reflexivity.
  - repeat constructor; discriminate.
Defined.

Lemma route_entry_dispatcher_witness :
  ("/users", handler_closure users_get) ∈ mux (main_routes demo_mocks).
Proof.
  exact (proj1 (route_entry_dispatcher demo_mocks "/users"
                  {| RouteChain.Handler := handler_closure users_get;
                     RouteChain.Middleware :=
                       [ middleware_of users_get;
                         middleware_of users_get_again;
                         middleware_of users_post ] |}
                  http.fresh (demo_request "GET") eq_refl)).
Defined.

Lemma loadMocks_error_no_partial_witness :
  loadMocks 1 demo_fs "nowhere"
  = Ret ([], Some (ErrPath {| Op := "open"; Path := "nowhere" |}))
  ∧ @nil (MockDefinition.t smallint) = [].
Proof.
  split; [reflexivity|].
  exact (loadMocks_error_no_partial 1 demo_fs "nowhere" []
           (ErrPath {| Op := "open"; Path := "nowhere" |}) eq_refl).
Defined.

Lemma loadMocks_loop_fifo_witness :
  loadMocks_loop 3 demo_fs [] {| chan.buf := ["mocks"]; chan.cap := 20 |}
  = loadMocks_loop 2 demo_fs
      [ demo_mock "/items" "GET" (VMap {["a" := VFloat (lit 1 I)]}) ∅ 201;
        demo_mock "/items" "DELETE" VNil ∅ 0 ]
      {| chan.buf := ["mocks/empty"]; chan.cap := 20 |}.
Proof.
  refine (loadMocks_loop_fifo 2 demo_fs [] "mocks" []
            [ {| os.Name := "items.json"; os.IsDir := false |};
              {| os.Name := "notes.txt"; os.IsDir := false |};
              {| os.Name := "empty"; os.IsDir := true |} ]
            eq_refl _ _ _).
  - repeat constructor.
  - vm_compute. lia.
  - vm_compute. lia.
Defined.

Lemma loadMocks_flat_directory_witness :
  loadMocks 2 flat_fs "mocks"
  = Ret ([ demo_mock "/items" "GET" (VMap {["a" := VFloat (lit 1 I)]}) ∅ 201;
           demo_mock "/items" "DELETE" VNil ∅ 0;
           demo_mock "/health" "GET" (VString "ok") ∅ 0 ], None).
Proof.
  refine (loadMocks_flat_directory 0 flat_fs "mocks"
            [ {| os.Name := "items.json"; os.IsDir := false |};
              {| os.Name := "readme.md"; os.IsDir := false |};
              {| os.Name := "health.json"; os.IsDir := false |} ]
            eq_refl _ _).
  - repeat constructor.
  - repeat constructor.
Defined.

Lemma loadMocks_first_bad_file_witness :
  loadMocks 1 broken_fs "mocks" = Ret ([], Some (ErrInvalidJson "mocks/broken.json")).
Proof.
  refine (loadMocks_first_bad_file 0 broken_fs "mocks"
            [ {| os.Name := "items.json"; os.IsDir := false |} ]
            [ {| os.Name := "health.json"; os.IsDir := false |} ]
            {| os.Name := "broken.json"; os.IsDir := false |}
            [] (ErrInvalidJson "mocks/broken.json")
            eq_refl _ _ eq_refl eq_refl eq_refl).
  - repeat constructor.
  - vm_compute. lia.
Defined.

Lemma loadMocks_blocks_on_wide_root_witness :
  loadMocks (F64 := smallint) 1 (wide_fs 21) "mocks" = Blocked.
Proof.
  refine (loadMocks_blocks_on_wide_root 0 (wide_fs 21) "mocks"
            (subdirectories 20) [] {| os.Name := "d20"; os.IsDir := true |}
            eq_refl _ eq_refl eq_refl).
  constructor.
Defined.
